(** * postalclient-go: the transport wrapper and the message endpoints

    A shallow embedding of [client.go] (type [Client], [Response], [Error],
    [Client.do], [Client.post]), [messages.go] (the four endpoint methods)
    and the models they decode into.

    Library code of Go's standard library the client relies on is embedded
    at the level these programs observe it:
    - [encoding/json] decoding into flat structs is written out (field
      lookup by exact then case-folded name, last member wins, [null] is a
      no-op, a type mismatch makes [Unmarshal] fail, [json.RawMessage] keeps
      the member's value verbatim); a JSON text is kept as its parse tree
      [jvalue], a text that is not JSON as [NotJSON];
    - [net/http] is an interaction tree: [Do] is the single call to
      [HTTPClient.Do], whose continuation receives whatever the network
      answered;
    - [url.Parse] and the float64 range check of [strconv.ParseFloat], and
      json decoding into the nested models [Message] and [[]Delivery], are
      parameters of the development (Section variables). *)

From Stdlib Require Import ZArith String Ascii List Bool Lia.
From stdpp Require Import base strings gmap.

Import ListNotations.
Local Open Scope string_scope.
Local Open Scope Z_scope.

Set Warnings "-register-all".

(* ------------------------------------------------------------------ *)
(** ** JSON values *)

Inductive jvalue : Type :=
| JNull
| JBool (b : bool)
| JNumber (lit : string)            (* the number literal as written *)
| JString (s : string)              (* the decoded string *)
| JArray (vs : list jvalue)
| JObject (ms : list (string * jvalue)).

(** A byte slice handed to [json.Unmarshal]: either a syntactically valid
    JSON text (with its parse tree) or not (the syntax check of
    [json.Unmarshal] rejects it before decoding anything). *)
Inductive bytes : Type :=
| JSONText (v : jvalue)
| NotJSON (raw : string).

(** [json.RawMessage]: [None] is the nil slice (the member was absent),
    [Some v] the raw bytes of the member's value [v], copied verbatim. *)
Definition RawMessage := option jvalue.

Definition raw_bytes (m : RawMessage) : bytes :=
  match m with
  | Some v => JSONText v
  | None => NotJSON ""          (* empty input: "unexpected end of JSON input" *)
  end.

(** [encoding/json.foldName]: ASCII letters upper-cased, and the four
    non-ASCII runes whose [unicode.ToUpper(unicode.ToLower r)] is ASCII
    (U+017F, U+0131, U+0130, U+212A as UTF-8 bytes) mapped to it. Every
    other non-ASCII byte is kept; like Go's output it is non-ASCII, so this
    function agrees with [foldName] on every comparison with the folded
    name of an ASCII struct field. *)
Fixpoint foldName (s : string) : string :=
  match s with
  | EmptyString => EmptyString
  | String "197" (String "191" r) => String "S" (foldName r)
  | String "196" (String "177" r) => String "I" (foldName r)
  | String "196" (String "176" r) => String "I" (foldName r)
  | String "226" (String "132" (String "170" r)) => String "K" (foldName r)
  | String c r =>
      let n := nat_of_ascii c in
      let c' := if (97 <=? n)%nat && (n <=? 122)%nat
                then ascii_of_nat (n - 32) else c in
      String c' (foldName r)
  end.

(* ------------------------------------------------------------------ *)
(** ** Decoding into structs (encoding/json, decode.go) *)

(** Decoding one JSON value into a destination of type [T]: [None] is a
    decoding error. *)
Definition decoder (T : Type) := T -> jvalue -> option T.

(** [d.object] for a struct: each member is looked up among the fields
    (by exact name, else by folded name) and decoded into the value built
    so far; unknown members are skipped. *)
Fixpoint find_exact {T} (fs : list (string * decoder T)) (k : string)
  : option (decoder T) :=
  match fs with
  | [] => None
  | (n, d) :: fs' => if String.eqb n k then Some d else find_exact fs' k
  end.

Fixpoint find_folded {T} (fs : list (string * decoder T)) (k : string)
  : option (decoder T) :=
  match fs with
  | [] => None
  | (n, d) :: fs' =>
      if String.eqb (foldName n) (foldName k) then Some d else find_folded fs' k
  end.

Definition find_field {T} (fs : list (string * decoder T)) (k : string)
  : option (decoder T) :=
  match find_exact fs k with
  | Some d => Some d
  | None => find_folded fs k
  end.

Fixpoint decode_members {T} (fs : list (string * decoder T))
    (ms : list (string * jvalue)) (x : T) : option T :=
  match ms with
  | [] => Some x
  | (k, v) :: ms' =>
      match find_field fs k with
      | None => decode_members fs ms' x
      | Some d =>
          match d x v with
          | None => None
          | Some x' => decode_members fs ms' x'
          end
      end
  end.

(** A struct destination: an object decodes member by member, [null] leaves
    it unchanged, anything else is an [UnmarshalTypeError]. *)
Definition decode_struct {T} (fs : list (string * decoder T)) : decoder T :=
  fun x v =>
    match v with
    | JObject ms => decode_members fs ms x
    | JNull => Some x
    | _ => None
    end.

(** [literalStore] into a string field. *)
Definition store_string {T} (set : T -> string -> T) : decoder T :=
  fun x v =>
    match v with
    | JString s => Some (set x s)
    | JNull => Some x
    | _ => None
    end.

(** A [json.RawMessage] field: its [UnmarshalJSON] copies the raw value,
    [null] included. *)
Definition store_raw {T} (set : T -> RawMessage -> T) : decoder T :=
  fun x v => Some (set x (Some v)).

(** [strconv.ParseInt(lit, 10, 64)] on a JSON number literal: an optional
    minus sign and decimal digits, within the int64 range. *)
Fixpoint digits_value (s : string) (acc : Z) : option Z :=
  match s with
  | EmptyString => Some acc
  | String c r =>
      let n := Z.of_nat (nat_of_ascii c) in
      if (48 <=? n) && (n <=? 57) then digits_value r (acc * 10 + (n - 48))
      else None
  end.

Definition ParseInt64 (lit : string) : option Z :=
  let r := match lit with
           | String "-" (String c r) => option_map Z.opp (digits_value (String c r) 0)
           | String "-" EmptyString => None
           | EmptyString => None
           | _ => digits_value lit 0
           end in
  match r with
  | Some z => if (- 2 ^ 63 <=? z) && (z <? 2 ^ 63) then Some z else None
  | None => None
  end.

(** [literalStore] into an [int] field (64-bit [int]). *)
Definition store_int {T} (set : T -> Z -> T) : decoder T :=
  fun x v =>
    match v with
    | JNumber lit =>
        match ParseInt64 lit with
        | Some z => Some (set x z)
        | None => None
        end
    | JNull => Some x
    | _ => None
    end.

(** [json.Unmarshal(data, &v)] with [v] starting from [zero]. *)
Definition Unmarshal {T} (dec : decoder T) (zero : T) (data : bytes) : option T :=
  match data with
  | JSONText v => dec zero v
  | NotJSON _ => None
  end.

(* ------------------------------------------------------------------ *)
(** ** Encoding (encoding/json, encode.go) *)

(** The decimal text [strconv] writes for an [int]. *)
Fixpoint digits_of (fuel : nat) (n : Z) (acc : string) : string :=
  match fuel with
  | O => acc
  | S f =>
      let acc' := String (ascii_of_nat (Z.to_nat (48 + n mod 10))) acc in
      if n / 10 =? 0 then acc' else digits_of f (n / 10) acc'
  end.

Definition itoa (z : Z) : string :=
  let fuel := Z.to_nat (Z.log2 (Z.abs z) + 2) in
  if z <? 0 then String "-" (digits_of fuel (- z) "") else digits_of fuel z "".

(** A [[]string]: the nil slice marshals as [null]. Slices are modelled
    as lists, the nil slice being the empty list. *)
Definition enc_strings (l : list string) : jvalue :=
  match l with
  | [] => JNull
  | _ => JArray (map JString l)
  end.

(** A field tagged [omitempty]: left out when [empty] holds. *)
Definition omitempty (empty : bool) (k : string) (v : jvalue)
  : list (string * jvalue) :=
  if empty then [] else [(k, v)].

(** A [map[string]string] marshals with its keys sorted bytewise. *)
Fixpoint insert_member (kv : string * jvalue) (l : list (string * jvalue))
  : list (string * jvalue) :=
  match l with
  | [] => [kv]
  | kv' :: l' =>
      if String.leb (fst kv) (fst kv') then kv :: l else kv' :: insert_member kv l'
  end.

Definition enc_string_map (m : list (string * string)) : jvalue :=
  match m with
  | [] => JNull
  | _ => JObject (fold_right insert_member [] (map (fun '(k, v) => (k, JString v)) m))
  end.

Definition is_empty_string (s : string) : bool := String.eqb s "".
Definition is_nil {A} (l : list A) : bool :=
  match l with [] => true | _ => false end.

(* ------------------------------------------------------------------ *)
(** ** Models *)

(** [client.go], type [Response]. [Time] is a float64, kept as the JSON
    number literal it was decoded from. *)
Module Response.
Record t := mk {
  Status : string;
  Time : string;
  Flags : RawMessage;
  Data : RawMessage
}.
Definition zero : t := mk "" "0" None None.
End Response.

(** [client.go], type [Error]. *)
Module Error.
Record t := mk {
  Status : string;
  Time : string;
  Flags : RawMessage;
  Data : RawMessage;
  ErrorCode : string;
  Message : string
}.
Definition zero : t := mk "" "0" None None "" "".
End Error.

(** [models/message.go], type [Attachment]. *)
Module Attachment.
Record t := mk {
  Name : string;
  ContentType : string;
  Data : string;
  Size : Z
}.
Definition marshal (a : t) : jvalue :=
  JObject [("name", JString (Name a)); ("content_type", JString (ContentType a));
           ("data", JString (Data a)); ("size", JNumber (itoa (Size a)))].
End Attachment.

(** [models/message.go], type [Message]. [Status] and [Details] are
    pointers to the empty structs [MessageStatus] and [MessageDetails];
    [Headers] is a Go map, as a list of members with distinct keys. *)
Module Message.
Record t := mk {
  ID : Z;
  Token : string;
  Status : option unit;
  Details : option unit;
  Inspection : RawMessage;
  PlainBody : string;
  HTMLBody : string;
  Attachments : list Attachment.t;
  Headers : list (string * string);
  RawMessage : string
}.
End Message.

(** [models/message.go], type [Delivery]. [Time] is the float64 as its
    literal, [Timestamp] the [time.Time] as its RFC 3339 text. *)
Module Delivery.
Record t := mk {
  ID : Z;
  Status : string;
  Details : string;
  Output : string;
  SentWithSSL : bool;
  LogID : Z;
  Time : string;
  Timestamp : string
}.
End Delivery.

(** [models/send.go], type [SendMessageRequest], with its JSON encoding
    (field order and [omitempty] tags as declared). *)
Module SendMessageRequest.
Record t := mk {
  To : list string;
  CC : list string;
  BCC : list string;
  From : string;
  Sender : string;
  Subject : string;
  Tag : string;
  ReplyTo : string;
  PlainBody : string;
  HTMLBody : string;
  Attachments : list Attachment.t;
  Headers : list (string * string);
  Bounce : bool
}.
Definition marshal (r : t) : jvalue :=
  JObject ([("to", enc_strings (To r))]
    ++ omitempty (is_nil (CC r)) "cc" (enc_strings (CC r))
    ++ omitempty (is_nil (BCC r)) "bcc" (enc_strings (BCC r))
    ++ [("from", JString (From r))]
    ++ omitempty (is_empty_string (Sender r)) "sender" (JString (Sender r))
    ++ [("subject", JString (Subject r))]
    ++ omitempty (is_empty_string (Tag r)) "tag" (JString (Tag r))
    ++ omitempty (is_empty_string (ReplyTo r)) "reply_to" (JString (ReplyTo r))
    ++ omitempty (is_empty_string (PlainBody r)) "plain_body" (JString (PlainBody r))
    ++ omitempty (is_empty_string (HTMLBody r)) "html_body" (JString (HTMLBody r))
    ++ omitempty (is_nil (Attachments r)) "attachments"
         (JArray (map Attachment.marshal (Attachments r)))
    ++ omitempty (is_nil (Headers r)) "headers" (enc_string_map (Headers r))
    ++ omitempty (negb (Bounce r)) "bounce" (JBool (Bounce r))).
End SendMessageRequest.

(** [models/send.go], type [SendRawRequest]. *)
Module SendRawRequest.
Record t := mk {
  MailFrom : string;
  RcptTo : list string;
  Data : string;
  Bounce : bool
}.
Definition marshal (r : t) : jvalue :=
  JObject ([("mail_from", JString (MailFrom r)); ("rcpt_to", enc_strings (RcptTo r));
            ("data", JString (Data r))]
    ++ omitempty (negb (Bounce r)) "bounce" (JBool (Bounce r))).
End SendRawRequest.

(** [models/send.go], type [SendMessageResponse], with its JSON decoding. *)
Module SendMessageResponse.
Record t := mk {
  MessageID : Z;
  Token : string
}.
Definition zero : t := mk 0 "".
Definition fields : list (string * decoder t) :=
  [("message_id", store_int (fun x z => mk z (Token x)));
   ("token", store_string (fun x s => mk (MessageID x) s))].
Definition decode : decoder t := decode_struct fields.
End SendMessageResponse.

(* ------------------------------------------------------------------ *)
(** ** net/http *)

(** [isTokenTable] of [golang.org/x/net/http/httpguts]. *)
Definition is_token_byte (c : ascii) : bool :=
  let n := nat_of_ascii c in
  ((48 <=? n) && (n <=? 57))%nat || ((65 <=? n) && (n <=? 90))%nat
  || ((97 <=? n) && (n <=? 122))%nat
  || existsb (Ascii.eqb c) ["!"; "#"; "$"; "%"; "&"; "'"; "*"; "+"; "-"; "."; "^"; "_"; "`"; "|"; "~"]%char.

Fixpoint all_token (s : string) : bool :=
  match s with
  | EmptyString => true
  | String c r => is_token_byte c && all_token r
  end.

Fixpoint canonical_case (upper : bool) (s : string) : string :=
  match s with
  | EmptyString => EmptyString
  | String c r =>
      let n := nat_of_ascii c in
      let c' := if upper && (97 <=? n)%nat && (n <=? 122)%nat then ascii_of_nat (n - 32)
                else if negb upper && (65 <=? n)%nat && (n <=? 90)%nat then ascii_of_nat (n + 32)
                else c in
      String c' (canonical_case (Ascii.eqb c' "-") r)
  end.

(** [textproto.CanonicalMIMEHeaderKey]: a key made of token bytes gets its
    first letter and every letter after a dash upper-cased and the others
    lower-cased; any other key is returned unchanged. *)
Definition CanonicalMIMEHeaderKey (s : string) : string :=
  if all_token s then canonical_case true s else s.

(** [http.Header]: [map[string][]string] keyed by canonical keys. *)
Abbreviation Header := (gmap string (list string)).

Definition Header_Set (h : Header) (key value : string) : Header :=
  <[CanonicalMIMEHeaderKey key := [value]]> h.

Definition Header_Get (h : Header) (key : string) : string :=
  match h !! CanonicalMIMEHeaderKey key with
  | Some (v :: _) => v
  | _ => ""
  end.

(** Errors of library calls, wrapped by [fmt.Errorf("...: %w", err)]. *)
Inductive lib_error : Type :=
| ErrMarshal (msg : string)       (* json.Marshal *)
| ErrMethod (method : string)     (* http.NewRequest: invalid method *)
| ErrURL (url : string)           (* http.NewRequest: url.Parse failed *)
| ErrNet (msg : string)           (* HTTPClient.Do *)
| ErrRead                         (* io.ReadAll *)
| ErrJSON.                        (* json.Unmarshal *)

(** The error values the package returns. *)
Inductive goerror : Type :=
| Errorf (prefix : string) (wrapped : lib_error)   (* fmt.Errorf(prefix + ": %w", wrapped) *)
| APIError (e : Error.t).                          (* &apiError, an *Error *)

(** [*http.Request]; [URL] is the text handed to [url.Parse], [Body] the
    JSON document of the [bytes.Reader] ([None]: no body). *)
Record Request := mkRequest {
  Method : string;
  URL : string;
  ReqHeader : Header;
  ReqBody : option jvalue
}.

Definition set_header (r : Request) (key value : string) : Request :=
  mkRequest (Method r) (URL r) (Header_Set (ReqHeader r) key value) (ReqBody r).

(** [*http.Response] with the outcome of reading its body to the end
    ([None]: [io.ReadAll] failed). *)
Record HttpResponse := mkHttpResponse {
  StatusCode : Z;
  RespBody : option bytes
}.

Definition StatusOK : Z := 200.
Definition MethodPost : string := "POST".

(** What [HTTPClient.Do] returns: a response, or an error. *)
Inductive net_result : Type :=
| NetOK (resp : HttpResponse)
| NetErr (msg : string).

(** [client.go], type [Client]; [HTTPClient] is the address of the
    (non-nil) [*http.Client]. *)
Record Client := mkClient {
  BaseURL : string;
  APIKey : string;
  HTTPClient : positive
}.

(** Programs that talk to the network: [Do hc req k] performs
    [hc.Do(req)] and continues with the network's answer. *)
Inductive io (A : Type) : Type :=
| Ret (a : A)
| Do (hc : positive) (req : Request) (k : net_result -> io A).
Arguments Ret {A} a.
Arguments Do {A} hc req k.

Fixpoint io_bind {A B} (t : io A) (f : A -> io B) : io B :=
  match t with
  | Ret a => f a
  | Do hc req k => Do hc req (fun o => io_bind (k o) f)
  end.

(** Running a program against a network that answers [net hc req]. *)
Fixpoint run {A} (net : positive -> Request -> net_result) (t : io A) : A :=
  match t with
  | Ret a => a
  | Do hc req k => run net (k (net hc req))
  end.

(** The requests a program may send, over all network answers. *)
Inductive sends {A} : io A -> Request -> Prop :=
| sends_here hc req k : sends (Do hc req k) req
| sends_later hc req k o req' : sends (k o) req' -> sends (Do hc req k) req'.

(** Methods on [*Client]: the client is the state they run in. *)
Definition M (A : Type) := Client -> io (Client * A).

Definition ret {A} (a : A) : M A := fun c => Ret (c, a).
Definition bind {A B} (m : M A) (f : A -> M B) : M B :=
  fun c => io_bind (m c) (fun '(c', a) => f a c').
Definition get_client : M Client := fun c => Ret (c, c).
Definition http_do (req : Request) : M net_result :=
  fun c => Do (HTTPClient c) req (fun o => Ret (c, o)).

Notation "'let!' x ':=' m 'in' k" := (bind m (fun x => k))
  (at level 200, x name, m at level 100, k at level 200).

(** [validMethod] of net/http. *)
Definition validMethod (method : string) : bool :=
  negb (String.eqb method "") && all_token method.

(* ------------------------------------------------------------------ *)
(** ** The client (client.go, messages.go) *)

Section Client.

(** Whether [url.Parse] accepts a URL. *)
Variable url_parse_ok : string -> bool.
(** Whether [strconv.ParseFloat(lit, 64)] accepts a JSON number literal
    (it fails when the value is out of the float64 range). *)
Variable float64_ok : string -> bool.
(** [json.Unmarshal] into a [models.Message] and into a [[]models.Delivery]
    ([None]: it returned an error). *)
Variable unmarshal_Message : bytes -> option Message.t.
Variable unmarshal_Deliveries : bytes -> option (list Delivery.t).

(** [literalStore] into a [float64] field. *)
Definition store_float {T} (set : T -> string -> T) : decoder T :=
  fun x v =>
    match v with
    | JNumber lit => if float64_ok lit then Some (set x lit) else None
    | JNull => Some x
    | _ => None
    end.

(** The fields of [Response] with their JSON names. *)
Definition Response_fields : list (string * decoder Response.t) :=
  [("status", store_string (fun x s => Response.mk s (Response.Time x) (Response.Flags x) (Response.Data x)));
   ("time", store_float (fun x s => Response.mk (Response.Status x) s (Response.Flags x) (Response.Data x)));
   ("flags", store_raw (fun x m => Response.mk (Response.Status x) (Response.Time x) m (Response.Data x)));
   ("data", store_raw (fun x m => Response.mk (Response.Status x) (Response.Time x) (Response.Flags x) m))].

Definition decode_Response : decoder Response.t := decode_struct Response_fields.

(** The fields of [Error] with their JSON names. *)
Definition Error_fields : list (string * decoder Error.t) :=
  [("status", store_string (fun x s =>
      Error.mk s (Error.Time x) (Error.Flags x) (Error.Data x) (Error.ErrorCode x) (Error.Message x)));
   ("time", store_float (fun x s =>
      Error.mk (Error.Status x) s (Error.Flags x) (Error.Data x) (Error.ErrorCode x) (Error.Message x)));
   ("flags", store_raw (fun x m =>
      Error.mk (Error.Status x) (Error.Time x) m (Error.Data x) (Error.ErrorCode x) (Error.Message x)));
   ("data", store_raw (fun x m =>
      Error.mk (Error.Status x) (Error.Time x) (Error.Flags x) m (Error.ErrorCode x) (Error.Message x)));
   ("error_code", store_string (fun x s =>
      Error.mk (Error.Status x) (Error.Time x) (Error.Flags x) (Error.Data x) s (Error.Message x)));
   ("message", store_string (fun x s =>
      Error.mk (Error.Status x) (Error.Time x) (Error.Flags x) (Error.Data x) (Error.ErrorCode x) s))].

Definition decode_Error : decoder Error.t := decode_struct Error_fields.

(** [http.NewRequest(method, url, body)]. *)
Definition NewRequest (method url : string) (body : option jvalue) : Request + lib_error :=
  let method := if String.eqb method "" then "GET" else method in
  if negb (validMethod method) then inr (ErrMethod method)
  else if negb (url_parse_ok url) then inr (ErrURL url)
  else inl (mkRequest method url ∅ body).

(** [if body != nil { bodyBytes, err := json.Marshal(body) ... }]. *)
Definition marshal_body {B} (marshal : B -> jvalue + lib_error) (body : option B)
  : option jvalue + lib_error :=
  match body with
  | None => inl None
  | Some b =>
      match marshal b with
      | inl v => inl (Some v)
      | inr err => inr err
      end
  end.

(** The request [do] builds, before it is sent. *)
Definition build_request {B} (marshal : B -> jvalue + lib_error) (c : Client)
    (method path : string) (body : option B) : Request + goerror :=
  let url := BaseURL c ++ path in
  match marshal_body marshal body with
  | inr err => inr (Errorf "error marshaling request body" err)
  | inl bodyReader =>
      match NewRequest method url bodyReader with
      | inr err => inr (Errorf "error creating request" err)
      | inl req =>
          let req := set_header req "Content-Type" "application/json" in
          let req := set_header req "Accept" "application/json" in
          inl (set_header req "X-Server-API-Key" (APIKey c))
      end
  end.

(** [json.Unmarshal(respBody, &apiError)] and its two returns. *)
Definition api_error (respBody : bytes) : option Response.t * option goerror :=
  match Unmarshal decode_Error Error.zero respBody with
  | None => (None, Some (Errorf "error unmarshaling error response" ErrJSON))
  | Some apiError => (None, Some (APIError apiError))
  end.

(** Everything [do] does once [HTTPClient.Do] has answered. *)
Definition handle_response (r : net_result) : option Response.t * option goerror :=
  match r with
  | NetErr e => (None, Some (Errorf "error performing request" (ErrNet e)))
  | NetOK resp =>
      match RespBody resp with
      | None => (None, Some (Errorf "error reading response body" ErrRead))
      | Some respBody =>
          if negb (StatusCode resp =? StatusOK) then api_error respBody
          else
            match Unmarshal decode_Response Response.zero respBody with
            | None => (None, Some (Errorf "error unmarshaling response" ErrJSON))
            | Some apiResp =>
                if negb (String.eqb (Response.Status apiResp) "success")
                then api_error respBody
                else (Some apiResp, None)
            end
      end
  end.

(** [func (c *Client) do(method, path string, body interface{}) ( *Response, error)]. *)
Definition do {B} (marshal : B -> jvalue + lib_error) (method path : string)
    (body : option B) : M (option Response.t * option goerror) :=
  let! c := get_client in
  match build_request marshal c method path body with
  | inr err => ret (None, Some err)
  | inl req =>
      let! r := http_do req in
      ret (handle_response r)
  end.

(** [func (c *Client) post(path string, body interface{}) ( *Response, error)]. *)
Definition post {B} (marshal : B -> jvalue + lib_error) (path : string) (body : option B)
  : M (option Response.t * option goerror) :=
  do marshal MethodPost path body.

(** The body [map[string]interface{}{"id": id}] and its encoding. *)
Definition marshal_id_map (id : Z) : jvalue + lib_error :=
  inl (JObject [("id", JNumber (itoa id))]).

(** A [*models.SendMessageRequest] or [*models.SendRawRequest] passed as
    [interface{}]: never a nil interface; a nil pointer marshals as [null]. *)
Definition marshal_ptr {T} (marshal : T -> jvalue) (p : option T) : jvalue + lib_error :=
  match p with
  | Some r => inl (marshal r)
  | None => inl JNull
  end.

(** [func (c *Client) GetMessage(id int) ( *models.Message, error)].
    ([do] never returns two nils, see [do_result_shape]; [resp.Data] on a
    nil response is that unreachable case.) *)
Definition GetMessage (id : Z) : M (option Message.t * option goerror) :=
  let! r := post marshal_id_map "/messages/message" (Some id) in
  match r with
  | (_, Some err) => ret (None, Some err)
  | (None, None) => ret (None, None)
  | (Some resp, None) =>
      match unmarshal_Message (raw_bytes (Response.Data resp)) with
      | None => ret (None, Some (Errorf "error unmarshaling response" ErrJSON))
      | Some message => ret (Some message, None)
      end
  end.

(** [func (c *Client) GetMessageDeliveries(id int) ([]models.Delivery, error)];
    the nil slice is the empty list. *)
Definition GetMessageDeliveries (id : Z) : M (list Delivery.t * option goerror) :=
  let! r := post marshal_id_map "/messages/deliveries" (Some id) in
  match r with
  | (_, Some err) => ret ([], Some err)
  | (None, None) => ret ([], None)
  | (Some resp, None) =>
      match unmarshal_Deliveries (raw_bytes (Response.Data resp)) with
      | None => ret ([], Some (Errorf "error unmarshaling response" ErrJSON))
      | Some deliveries => ret (deliveries, None)
      end
  end.

(** [func (c *Client) SendMessage(req *models.SendMessageRequest) ( *models.SendMessageResponse, error)]. *)
Definition SendMessage (req : option SendMessageRequest.t)
  : M (option SendMessageResponse.t * option goerror) :=
  let! r := post (marshal_ptr SendMessageRequest.marshal) "/send/message" (Some req) in
  match r with
  | (_, Some err) => ret (None, Some err)
  | (None, None) => ret (None, None)
  | (Some resp, None) =>
      match Unmarshal SendMessageResponse.decode SendMessageResponse.zero
              (raw_bytes (Response.Data resp)) with
      | None => ret (None, Some (Errorf "error unmarshaling send response" ErrJSON))
      | Some sendResp => ret (Some sendResp, None)
      end
  end.

(** [func (c *Client) SendRaw(req *models.SendRawRequest) ( *models.SendMessageResponse, error)]. *)
Definition SendRaw (req : option SendRawRequest.t)
  : M (option SendMessageResponse.t * option goerror) :=
  let! r := post (marshal_ptr SendRawRequest.marshal) "/send/raw" (Some req) in
  match r with
  | (_, Some err) => ret (None, Some err)
  | (None, None) => ret (None, None)
  | (Some resp, None) =>
      match Unmarshal SendMessageResponse.decode SendMessageResponse.zero
              (raw_bytes (Response.Data resp)) with
      | None => ret (None, Some (Errorf "error unmarshaling send response" ErrJSON))
      | Some sendResp => ret (Some sendResp, None)
      end
  end.

End Client.

(* ------------------------------------------------------------------ *)
(** ** Envelopes as the spec describes them *)

(** Folding the members of an object whose key names the field [name]
    (compared as [encoding/json] compares a key with a field name). *)
Definition member_fold {A} (name : string) (upd : A -> jvalue -> A)
    (ms : list (string * jvalue)) (a : A) : A :=
  fold_left (fun a '(k, v) =>
    if String.eqb (foldName k) (foldName name) then upd a v else a) ms a.

(** The value of the envelope's field [name]: its last member of that name. *)
Definition envelope_field (name : string) (ms : list (string * jvalue)) : option jvalue :=
  member_fold name (fun _ v => Some v) ms None.

Definition is_jstring (v : jvalue) : bool :=
  match v with JString _ => true | _ => false end.

(** A well-formed envelope: an object whose [status], [error_code] and
    [message] members are strings and whose [time] members are float64
    numbers; [flags] and [data] hold any JSON value, other members are
    free. *)
Definition member_ok (float64_ok : string -> bool) (kv : string * jvalue) : bool :=
  let f := foldName (fst kv) in
  if String.eqb f (foldName "status") || String.eqb f (foldName "error_code")
     || String.eqb f (foldName "message")
  then is_jstring (snd kv)
  else if String.eqb f (foldName "time")
  then match snd kv with JNumber lit => float64_ok lit | _ => false end
  else true.

Definition envelope_wf (float64_ok : string -> bool) (ms : list (string * jvalue)) : bool :=
  forallb (member_ok float64_ok) ms.

(** A server answer: status code and a JSON body read to the end. *)
Definition reply (code : Z) (body : jvalue) : net_result :=
  NetOK (mkHttpResponse code (Some (JSONText body))).

(** What a string field holds after one member: the string, or (for
    [null] and values of other types) what it held before. *)
Definition upd_string (a : string) (v : jvalue) : string :=
  match v with JString s => s | _ => a end.

(** One member of [d.object] applied to a struct value. *)
Definition member_step {T} (fs : list (string * decoder T)) (x : T)
    (kv : string * jvalue) : option T :=
  match find_field fs (fst kv) with
  | None => Some x
  | Some d => d x (snd kv)
  end.

(* ------------------------------------------------------------------ *)
(** ** Constructors and error texts (client.go) *)

Definition DefaultBaseURL : string := "https://postal.example.com/api/v1".

(** [30 * time.Second], a [time.Duration] in nanoseconds. *)
Definition DefaultTimeout : Z := 30 * 1000000000.

(** The [http.Client] value the constructors allocate: only its
    [Timeout] is set. *)
Record http_Client := mk_http_Client { Timeout : Z }.

(** [NewClient(apiKey)]: [hc] is the address of the [&http.Client{...}]
    it allocates, returned with the value stored there. *)
Definition NewClient (hc : positive) (apiKey : string) : Client * http_Client :=
  (mkClient DefaultBaseURL apiKey hc, mk_http_Client DefaultTimeout).

(** [NewClientWithOptions(apiKey, baseURL, timeout)]. *)
Definition NewClientWithOptions (hc : positive) (apiKey baseURL : string) (timeout : Z)
  : Client * http_Client :=
  (mkClient baseURL apiKey hc, mk_http_Client timeout).

(** [func (e *Error) Error() string]: [fmt.Sprintf("postal API error: %s - %s", e.Status, e.Message)]. *)
Definition Error_Error (e : Error.t) : string :=
  "postal API error: " ++ Error.Status e ++ " - " ++ Error.Message e.

(** [err.Error()] of the errors the package returns: [fmt.Errorf] with
    [%w] writes the prefix, ": " and the text [lib_text] of the wrapped
    library error. *)
Definition goerror_Error (lib_text : lib_error -> string) (e : goerror) : string :=
  match e with
  | Errorf prefix wrapped => prefix ++ ": " ++ lib_text wrapped
  | APIError e => Error_Error e
  end.

(* ------------------------------------------------------------------ *)
(** ** encoding/base64, [StdEncoding] *)

Definition encodeStd : string :=
  "ABCDEFGHIJKLMNOPQRSTUVWXYZabcdefghijklmnopqrstuvwxyz0123456789+/".

Definition StdPadding : ascii := "=".

(** [enc.encode[v&0x3F]]. *)
Definition encode_sextet (v : Z) : ascii :=
  match String.get (Z.to_nat (Z.land v 63)) encodeStd with
  | Some a => a
  | None => StdPadding
  end.

Definition byte_val (a : ascii) : Z := Z.of_nat (nat_of_ascii a).

(** [( *Encoding).Encode]: the full 3-byte groups, then the 1 or 2
    remaining bytes with [padChar]. *)
Fixpoint encode_groups (src : string) : string :=
  match src with
  | String a (String b (String c r)) =>
      let val := Z.lor (Z.lor (Z.shiftl (byte_val a) 16) (Z.shiftl (byte_val b) 8)) (byte_val c) in
      String (encode_sextet (Z.shiftr val 18)) (String (encode_sextet (Z.shiftr val 12))
        (String (encode_sextet (Z.shiftr val 6)) (String (encode_sextet val) (encode_groups r))))
  | String a (String b EmptyString) =>
      let val := Z.lor (Z.shiftl (byte_val a) 16) (Z.shiftl (byte_val b) 8) in
      String (encode_sextet (Z.shiftr val 18)) (String (encode_sextet (Z.shiftr val 12))
        (String (encode_sextet (Z.shiftr val 6)) (String StdPadding EmptyString)))
  | String a EmptyString =>
      let val := Z.shiftl (byte_val a) 16 in
      String (encode_sextet (Z.shiftr val 18)) (String (encode_sextet (Z.shiftr val 12))
        (String StdPadding (String StdPadding EmptyString)))
  | EmptyString => EmptyString
  end.

(** [base64.StdEncoding.EncodeToString(src)]. *)
Definition EncodeToString (src : string) : string := encode_groups src.

(* ------------------------------------------------------------------ *)
(** ** The examples (examples/message/send_message.go, examples/raw) *)

Definition nl : string := String (ascii_of_nat 10) EmptyString.

(** How an example ends: it returns, [log.Fatalf] prints its message and
    exits, or a nil pointer is dereferenced. *)
Inductive exit_status : Type :=
| Finished
| Fatal (msg : string)
| Panic.

(** [client.BaseURL = baseURL]. *)
Definition with_BaseURL (c : Client) (baseURL : string) : Client :=
  mkClient baseURL (APIKey c) (HTTPClient c).

(** [for i, delivery := range deliveries { fmt.Printf("Delivery %d - Status: %s, Details: %s\n", i+1, ...) }]. *)
Fixpoint delivery_lines (i : Z) (ds : list Delivery.t) : list string :=
  match ds with
  | [] => []
  | d :: ds' =>
      ("Delivery " ++ itoa (i + 1) ++ " - Status: " ++ Delivery.Status d
       ++ ", Details: " ++ Delivery.Details d ++ nl) :: delivery_lines (i + 1) ds'
  end.

(** [package message]: an example is an HTTP program whose result is what
    it printed with [fmt.Printf] and how it ended. *)
Module message.
Section Example.
Variables (url_parse_ok float64_ok : string -> bool)
  (unmarshal_Message : bytes -> option Message.t)
  (unmarshal_Deliveries : bytes -> option (list Delivery.t))
  (lib_text : lib_error -> string).

Definition example_request : SendMessageRequest.t :=
  SendMessageRequest.mk ["recipient@example.com"] [] [] "sender@yourdomain.com" ""
    "Hello from Postal API" "" ""
    "This is a test email sent using the Postal API Go client."
    "<p>This is a test email sent using the <strong>Postal API Go client</strong>.</p>"
    [] [("X-Custom-Header", "Custom Value")] false.

(** [func SendExample(apiKey, baseURL string)]. *)
Definition SendExample (hc : positive) (apiKey baseURL : string) : io (list string * exit_status) :=
  let client := fst (NewClient hc apiKey) in
  let client := if negb (String.eqb baseURL "") then with_BaseURL client baseURL else client in
  let req := example_request in
  io_bind (SendMessage url_parse_ok float64_ok (Some req) client) (fun '(client, r) =>
  match r with
  | (_, Some err) => Ret ([], Fatal ("Error sending message: " ++ goerror_Error lib_text err))
  | (None, None) => Ret ([], Panic)
  | (Some resp, None) =>
      let out1 := "Message sent successfully! Message ID: " ++ itoa (SendMessageResponse.MessageID resp)
                  ++ ", Token: " ++ SendMessageResponse.Token resp ++ nl in
      io_bind (GetMessage url_parse_ok float64_ok unmarshal_Message
                 (SendMessageResponse.MessageID resp) client) (fun '(client, r) =>
      match r with
      | (_, Some err) => Ret ([out1], Fatal ("Error getting message: " ++ goerror_Error lib_text err))
      | (None, None) => Ret ([out1], Panic)
      | (Some message, None) =>
          let out2 := "Message details - ID: " ++ itoa (Message.ID message)
                      ++ ", Token: " ++ Message.Token message ++ nl in
          io_bind (GetMessageDeliveries url_parse_ok float64_ok unmarshal_Deliveries
                     (SendMessageResponse.MessageID resp) client) (fun '(_, r) =>
          match r with
          | (_, Some err) =>
              Ret ([out1; out2], Fatal ("Error getting message deliveries: " ++ goerror_Error lib_text err))
          | (deliveries, None) =>
              Ret (app [out1; out2; "Message has " ++ itoa (Z.of_nat (length deliveries)) ++ " deliveries" ++ nl]
                     (delivery_lines 0 deliveries), Finished)
          end)
      end)
  end).

End Example.
End message.

(** [package raw]. *)
Module raw.
Section Example.
Variables (url_parse_ok float64_ok : string -> bool)
  (unmarshal_Message : bytes -> option Message.t)
  (unmarshal_Deliveries : bytes -> option (list Delivery.t))
  (lib_text : lib_error -> string).

(** The raw string literal [rawMessage]. *)
Definition rawMessage : string :=
  "From: sender@yourdomain.com" ++ nl ++ "To: recipient@example.com" ++ nl
  ++ "Subject: Hello from Postal API" ++ nl ++ "Content-Type: text/plain; charset=utf-8" ++ nl
  ++ nl ++ "This is a test email sent using the Postal API Go client with a raw RFC2822 message." ++ nl.

Definition example_request (encodedMessage : string) : SendRawRequest.t :=
  SendRawRequest.mk "sender@yourdomain.com" ["recipient@example.com"] encodedMessage false.

(** [func SendExample(apiKey, baseURL string)]. *)
Definition SendExample (hc : positive) (apiKey baseURL : string) : io (list string * exit_status) :=
  let client := fst (NewClient hc apiKey) in
  let client := if negb (String.eqb baseURL "") then with_BaseURL client baseURL else client in
  let encodedMessage := EncodeToString rawMessage in
  let req := example_request encodedMessage in
  io_bind (SendRaw url_parse_ok float64_ok (Some req) client) (fun '(client, r) =>
  match r with
  | (_, Some err) => Ret ([], Fatal ("Error sending raw message: " ++ goerror_Error lib_text err))
  | (None, None) => Ret ([], Panic)
  | (Some resp, None) =>
      let out1 := "Raw message sent successfully! Message ID: " ++ itoa (SendMessageResponse.MessageID resp)
                  ++ ", Token: " ++ SendMessageResponse.Token resp ++ nl in
      io_bind (GetMessage url_parse_ok float64_ok unmarshal_Message
                 (SendMessageResponse.MessageID resp) client) (fun '(client, r) =>
      match r with
      | (_, Some err) => Ret ([out1], Fatal ("Error getting message: " ++ goerror_Error lib_text err))
      | (None, None) => Ret ([out1], Panic)
      | (Some message, None) =>
          let out2 := "Message details - ID: " ++ itoa (Message.ID message)
                      ++ ", Token: " ++ Message.Token message ++ nl in
          io_bind (GetMessageDeliveries url_parse_ok float64_ok unmarshal_Deliveries
                     (SendMessageResponse.MessageID resp) client) (fun '(_, r) =>
          match r with
          | (_, Some err) =>
              Ret ([out1; out2], Fatal ("Error getting message deliveries: " ++ goerror_Error lib_text err))
          | (deliveries, None) =>
              Ret (app [out1; out2; "Message has " ++ itoa (Z.of_nat (length deliveries)) ++ " deliveries" ++ nl]
                     (delivery_lines 0 deliveries), Finished)
          end)
      end)
  end).

End Example.
End raw.

(* ------------------------------------------------------------------ *)
(** ** Observations used to state properties *)

(** The requests a program sends, in order, against the network [net]. *)
Fixpoint trace {A} (net : positive -> Request -> net_result) (t : io A) : list Request :=
  match t with
  | Ret _ => []
  | Do hc req k => req :: trace net (k (net hc req))
  end.

(** What a string field decoded from the envelope holds: the last member
    of that name when it is a string, else the empty string. *)
Definition envelope_string (name : string) (ms : list (string * jvalue)) : string :=
  match envelope_field name ms with
  | Some (JString s) => s
  | _ => ""
  end.

(** ASCII lower-casing. *)
Definition lower_ascii (c : ascii) : ascii :=
  let n := nat_of_ascii c in
  if (65 <=? n)%nat && (n <=? 90)%nat then ascii_of_nat (n + 32) else c.

Fixpoint lower (s : string) : string :=
  match s with
  | EmptyString => EmptyString
  | String c r => String (lower_ascii c) (lower r)
  end.

(** A Go [int] (64 bits). *)
Definition is_int64 (z : Z) : bool := (- 2 ^ 63 <=? z) && (z <? 2 ^ 63).

(** Members listed with their keys in increasing bytewise order. *)
Fixpoint keys_sorted (l : list (string * jvalue)) : bool :=
  match l with
  | kv :: (kv' :: _) as l' => String.leb (fst kv) (fst kv') && keys_sorted l'
  | _ => true
  end.

(** Whether every character of [s] is one of [alphabet]. *)
Fixpoint chars_in (alphabet s : string) : bool :=
  match s with
  | EmptyString => true
  | String c r => existsb (Ascii.eqb c) (list_ascii_of_string alphabet) && chars_in alphabet r
  end.

(* ------------------------------------------------------------------ *)
(** ** Sample values *)

(** A client as [NewClient("https://postal.example.com/api/v1", "key")]
    builds it, and an always-accepting [url.Parse] / float64 range check. *)
Definition sample_client : Client := mkClient "https://postal.example.com/api/v1" "key" 1.

Definition accept_all (s : string) : bool := true.

Definition success_envelope : list (string * jvalue) :=
  [("status", JString "success"); ("time", JNumber "0.05");
   ("data", JObject [("message_id", JNumber "123"); ("token", JString "t")])].

Definition error_envelope : list (string * jvalue) :=
  [("status", JString "error"); ("time", JNumber "0.01");
   ("error_code", JString "MessageNotFound"); ("message", JString "No message found")].

Definition malformed_data_envelope : list (string * jvalue) :=
  [("status", JString "success"); ("data", JString "oops")].

(** The request [do(http.MethodPost, "/messages/message", map{"id": 1})]
    sends for [sample_client]. *)
Definition sample_request : Request :=
  mkRequest "POST" "https://postal.example.com/api/v1/messages/message"
    (<["X-Server-Api-Key" := ["key"]]> (<["Accept" := ["application/json"]]>
       (<["Content-Type" := ["application/json"]]> ∅)))
    (Some (JObject [("id", JNumber "1")])).

Definition sample_send_request : SendMessageRequest.t :=
  SendMessageRequest.mk ["a@b.com"] [] [] "c@d.com" "" "Hi" "" "" "Hello" "" [] [] false.

(** A body [json.Marshal] rejects. *)
Definition marshal_chan (x : Z) : jvalue + lib_error := inr (ErrMarshal "json: unsupported type: chan int").

Definition reject_all (s : string) : bool := false.

(** A server that accepts every send as message 42. *)
Definition sent_ids_envelope : list (string * jvalue) :=
  [("status", JString "success"); ("time", JNumber "0.05"); ("flags", JObject []);
   ("data", JObject [("message_id", JNumber "42"); ("token", JString "tok")])].

Definition sent_ids_net (hc : positive) (r : Request) : net_result :=
  reply StatusOK (JObject sent_ids_envelope).

Definition sample_lib_text (e : lib_error) : string :=
  match e with
  | ErrMarshal m | ErrNet m => m
  | ErrMethod m => "net/http: invalid method " ++ m
  | ErrURL u => "parse " ++ u
  | ErrRead => "unexpected EOF"
  | ErrJSON => "invalid character"
  end.

(* ------------------------------------------------------------------ *)
(** ** Proofs *)

Section Proofs.

Context (url_parse_ok float64_ok : string -> bool).
Context (unmarshal_Message : bytes -> option Message.t).
Context (unmarshal_Deliveries : bytes -> option (list Delivery.t)).
Context (lib_text : lib_error -> string).

Lemma run_io_bind {A B} (net : positive -> Request -> net_result) (t : io A) (f : A -> io B) :
  run net (io_bind t f) = run net (f (run net t)).
Proof. induction t as [a | hc req k IH]; simpl; auto. Qed.

Lemma run_bind {A B} net (m : M A) (f : A -> M B) c :
  run net (bind m f c) = let '(c', a) := run net (m c) in run net (f a c').
Proof.
  unfold bind. rewrite run_io_bind. destruct (run net (m c)); reflexivity.
Qed.

Lemma sends_io_bind {A B} (t : io A) (f : A -> io B) req :
  sends (io_bind t f) req -> sends t req \/ exists a, sends (f a) req.
Proof.
  induction t as [a | hc r k IH]; simpl; intros H.
  - right. exists a. exact H.
  - inversion H; subst.
    + left. constructor.
    + match goal with Hs : sends _ _ |- _ => destruct (IH _ Hs) as [Hl | Hr] end.
      * left. eapply sends_later. exact Hl.
      * right. exact Hr.
Qed.

Lemma sends_ret {A} (a : A) req : ~ sends (Ret a) req.
Proof. intros H. inversion H. Qed.

(** [do] as one call to [HTTPClient.Do] on the request [build_request]
    returns. *)
Lemma do_unfold {B} (marshal : B -> jvalue + lib_error) method path body c :
  do url_parse_ok float64_ok marshal method path body c =
  match build_request url_parse_ok marshal c method path body with
  | inr err => Ret (c, (None, Some err))
  | inl req => Do (HTTPClient c) req (fun o => Ret (c, handle_response float64_ok o))
  end.
Proof.
  unfold do, bind, get_client, http_do, ret; simpl.
  destruct (build_request _ _ _ _ _ _); reflexivity.
Qed.

Lemma run_do {B} net (marshal : B -> jvalue + lib_error) method path body c :
  run net (do url_parse_ok float64_ok marshal method path body c) =
  match build_request url_parse_ok marshal c method path body with
  | inr err => (c, (None, Some err))
  | inl req => (c, handle_response float64_ok (net (HTTPClient c) req))
  end.
Proof.
  rewrite do_unfold. destruct (build_request _ _ _ _ _ _); reflexivity.
Qed.

(** [do] never returns two nils, nor a response with an error. *)
Lemma handle_response_shape r :
  match handle_response float64_ok r with
  | (Some _, None) | (None, Some _) => True
  | _ => False
  end.
Proof.
  unfold handle_response, api_error.
  destruct r as [[code [body|]] | e]; simpl; auto.
  destruct (negb (code =? StatusOK)).
  - destruct (Unmarshal _ _ _); auto.
  - destruct (Unmarshal _ _ _) as [apiResp|]; auto.
    destruct (negb _); auto. destruct (Unmarshal _ _ _); auto.
Qed.

Lemma do_result_shape {B} net (marshal : B -> jvalue + lib_error) method path body c :
  match snd (run net (do url_parse_ok float64_ok marshal method path body c)) with
  | (Some _, None) | (None, Some _) => True
  | _ => False
  end.
Proof.
  rewrite run_do. destruct (build_request _ _ _ _ _ _); simpl; auto.
  apply handle_response_shape.
Qed.


(** *** Decoding envelopes *)

Lemma decode_members_step {T} (fs : list (string * decoder T)) k v ms x :
  decode_members fs ((k, v) :: ms) x =
  match member_step fs x (k, v) with
  | None => None
  | Some x' => decode_members fs ms x'
  end.
Proof. simpl. unfold member_step; simpl. destruct (find_field fs k); reflexivity. Qed.

(** A projection of the decoded struct follows the members of one field. *)
Lemma decode_members_proj {T A} (fs : list (string * decoder T)) (proj : T -> A)
    (name : string) (upd : A -> jvalue -> A) :
  (forall x k v x', member_step fs x (k, v) = Some x' ->
     proj x' = if String.eqb (foldName k) (foldName name) then upd (proj x) v else proj x) ->
  forall ms x r, decode_members fs ms x = Some r ->
  proj r = member_fold name upd ms (proj x).
Proof.
  intros Hstep ms. induction ms as [| [k v] ms IH]; intros x r Hd.
  - simpl in Hd. injection Hd as <-. reflexivity.
  - rewrite decode_members_step in Hd.
    destruct (member_step fs x (k, v)) as [x'|] eqn:Hs; [| discriminate].
    rewrite (IH _ _ Hd), (Hstep _ _ _ _ Hs). reflexivity.
Qed.

(** Decoding succeeds when every member decodes. *)
Lemma decode_members_total {T} (fs : list (string * decoder T)) (P : string * jvalue -> bool) :
  (forall x kv, P kv = true -> member_step fs x kv <> None) ->
  forall ms x, forallb P ms = true -> exists r, decode_members fs ms x = Some r.
Proof.
  intros Hok ms. induction ms as [| [k v] ms IH]; intros x Hall.
  - exists x. reflexivity.
  - simpl in Hall. apply andb_prop in Hall as [Hkv Hall].
    rewrite decode_members_step.
    destruct (member_step fs x (k, v)) as [x'|] eqn:Hs.
    + apply IH. exact Hall.
    + exfalso. exact (Hok x (k, v) Hkv Hs).
Qed.

(** The last member of a field, when it is a string, is what a string
    field holds. *)
Lemma member_fold_last_string name ms (a : string) b m :
  (b = Some (JString m) -> a = m) ->
  member_fold name (fun _ v => Some v) ms b = Some (JString m) ->
  member_fold name upd_string ms a = m.
Proof.
  revert a b. induction ms as [| [k v] ms IH]; intros a b Hab H.
  - apply Hab. exact H.
  - unfold member_fold in *; simpl in *.
    destruct (String.eqb (foldName k) (foldName name)); eapply IH; [| exact H | | exact H].
    + intros Hv. injection Hv as ->. reflexivity.
    + exact Hab.
Qed.

(** When all members of a field are strings, a string field holds the
    last one, or its initial value when there is none. *)
Lemma member_fold_strings name ms (a : string) b :
  forallb (fun kv => negb (String.eqb (foldName (fst kv)) (foldName name)) || is_jstring (snd kv)) ms = true ->
  (b = Some (JString a) \/ b = None) ->
  member_fold name (fun _ v => Some v) ms b = Some (JString (member_fold name upd_string ms a))
  \/ (member_fold name (fun _ v => Some v) ms b = None /\ member_fold name upd_string ms a = a /\ b = None).
Proof.
  revert a b. induction ms as [| [k v] ms IH]; intros a b Hall Hb.
  - simpl. destruct Hb as [-> | ->]; [left | right]; auto.
  - simpl in Hall. apply andb_prop in Hall as [Hkv Hall].
    unfold member_fold in *; simpl.
    destruct (String.eqb (foldName k) (foldName name)) eqn:E; simpl in Hkv.
    + destruct v; try discriminate. simpl.
      destruct (IH s (Some (JString s)) Hall (or_introl eq_refl)) as [H | [_ [_ H]]].
      * left. exact H.
      * discriminate.
    + apply IH; assumption.
Qed.

Ltac exact_then_folded :=
  intros k; unfold find_field; cbn -[String.eqb foldName];
  repeat match goal with
  | |- context [String.eqb ?n k] =>
      let E := fresh "E" in
      destruct (String.eqb n k) eqn:E;
      [apply String.eqb_eq in E; subst; reflexivity |]
  end; reflexivity.

Lemma find_field_Response : forall k,
  find_field (Response_fields float64_ok) k = find_folded (Response_fields float64_ok) k.
Proof. exact_then_folded. Qed.

Lemma find_field_Error : forall k,
  find_field (Error_fields float64_ok) k = find_folded (Error_fields float64_ok) k.
Proof. exact_then_folded. Qed.

Lemma foldName_status : foldName "status" = "STATUS". Proof. reflexivity. Qed.
Lemma foldName_time : foldName "time" = "TIME". Proof. reflexivity. Qed.
Lemma foldName_flags : foldName "flags" = "FLAGS". Proof. reflexivity. Qed.
Lemma foldName_data : foldName "data" = "DATA". Proof. reflexivity. Qed.
Lemma foldName_error_code : foldName "error_code" = "ERROR_CODE". Proof. reflexivity. Qed.
Lemma foldName_message : foldName "message" = "MESSAGE". Proof. reflexivity. Qed.

Create Rewrite HintDb field_names.
#[local] Hint Rewrite foldName_status foldName_time foldName_flags foldName_data
  foldName_error_code foldName_message : field_names.

Ltac field_case a k :=
  let E := fresh "E" in
  destruct (String.eqb a (foldName k)) eqn:E;
  [apply String.eqb_eq in E; try rewrite <- E in *; clear E | clear E].

(** Splits on which field a key names; two fields never share a folded
    name, so a key naming one field names no other. *)
Ltac field_cases k :=
  repeat match goal with
  | |- context [String.eqb ?a (foldName k)] => field_case a k
  | H : context [String.eqb ?a (foldName k)] |- _ => field_case a k
  end.

Ltac step_proj find_lemma :=
  intros x k v x'; unfold member_step; simpl fst; simpl snd;
  rewrite find_lemma; unfold find_folded; cbn -[String.eqb foldName];
  autorewrite with field_names;
  rewrite ?(String.eqb_sym (foldName k));
  field_cases k;
  intros H; destruct v; cbn in H;
  try (destruct (float64_ok _)); try discriminate H;
  injection H as <-; reflexivity.

Lemma Response_step_Status :
  forall x k v x', member_step (Response_fields float64_ok) x (k, v) = Some x' ->
  Response.Status x' = if String.eqb (foldName k) (foldName "status")
                       then upd_string (Response.Status x) v else Response.Status x.
Proof. step_proj find_field_Response. Qed.


Lemma Response_step_Data :
  forall x k v x', member_step (Response_fields float64_ok) x (k, v) = Some x' ->
  Response.Data x' = if String.eqb (foldName k) (foldName "data")
                     then (fun _ v => Some v) (Response.Data x) v else Response.Data x.
Proof. step_proj find_field_Response. Qed.

Lemma Error_step_Message :
  forall x k v x', member_step (Error_fields float64_ok) x (k, v) = Some x' ->
  Error.Message x' = if String.eqb (foldName k) (foldName "message")
                     then upd_string (Error.Message x) v else Error.Message x.
Proof. step_proj find_field_Error. Qed.

Ltac step_total find_lemma :=
  intros x [k v] Hok; unfold member_ok in Hok; unfold member_step;
  cbn -[String.eqb foldName] in *;
  rewrite find_lemma; unfold find_folded; cbn -[String.eqb foldName];
  autorewrite with field_names in *;
  rewrite ?(String.eqb_sym (foldName k)) in *;
  field_cases k; cbn -[String.eqb foldName] in *;
  destruct v; cbn in *; try discriminate;
  try (rewrite Hok; discriminate).

Lemma Response_step_total :
  forall x kv, member_ok float64_ok kv = true ->
  member_step (Response_fields float64_ok) x kv <> None.
Proof. step_total find_field_Response. Qed.

Lemma Error_step_total :
  forall x kv, member_ok float64_ok kv = true ->
  member_step (Error_fields float64_ok) x kv <> None.
Proof. step_total find_field_Error. Qed.


Lemma envelope_wf_strings name (ms : list (string * jvalue)) :
  In name ["status"; "error_code"; "message"] ->
  envelope_wf float64_ok ms = true ->
  forallb (fun kv => negb (String.eqb (foldName (fst kv)) (foldName name)) || is_jstring (snd kv)) ms = true.
Proof.
  intros Hname. induction ms as [| [k v] ms IH]; simpl; intros Hwf; auto.
  apply andb_prop in Hwf as [Hkv Hwf]. rewrite (IH Hwf), andb_true_r.
  unfold member_ok in Hkv; simpl in Hkv.
  destruct (String.eqb (foldName k) (foldName name)) eqn:E; simpl; auto.
  apply String.eqb_eq in E. rewrite E in Hkv.
  destruct Hname as [<- | [<- | [<- | []]]]; exact Hkv.
Qed.

Lemma Unmarshal_Response_object ms :
  Unmarshal (decode_Response float64_ok) Response.zero (JSONText (JObject ms)) =
  decode_members (Response_fields float64_ok) ms Response.zero.
Proof. reflexivity. Qed.

Lemma Unmarshal_Error_object ms :
  Unmarshal (decode_Error float64_ok) Error.zero (JSONText (JObject ms)) =
  decode_members (Error_fields float64_ok) ms Error.zero.
Proof. reflexivity. Qed.

Lemma handle_reply_not_ok code body :
  code <> StatusOK ->
  handle_response float64_ok (reply code body) = api_error float64_ok (JSONText body).
Proof.
  intros Hne. unfold handle_response, reply; cbn [RespBody StatusCode].
  apply Z.eqb_neq in Hne. rewrite Hne. reflexivity.
Qed.

Lemma handle_reply_ok body :
  handle_response float64_ok (reply StatusOK body) =
  match Unmarshal (decode_Response float64_ok) Response.zero (JSONText body) with
  | None => (None, Some (Errorf "error unmarshaling response" ErrJSON))
  | Some apiResp =>
      if negb (String.eqb (Response.Status apiResp) "success")
      then api_error float64_ok (JSONText body)
      else (Some apiResp, None)
  end.
Proof. reflexivity. Qed.

(** *** The transport wrapper *)

(** C1 (amended): when the request is sent and the server answers with a
    well-formed envelope whose [status] is "success": with status code 200
    ([http.StatusOK]) [do] returns that envelope, decoded, with a nil
    error, its [Data] being the raw value of the envelope's [data] member;
    with any other status code (other 2xx codes included) [do] returns a
    nil envelope and the body parsed as an [*Error]. *)
Theorem do_status_200_success_returns_envelope {B} (marshal : B -> jvalue + lib_error)
    method path body c req ms net :
  build_request url_parse_ok marshal c method path body = inl req ->
  envelope_wf float64_ok ms = true ->
  envelope_field "status" ms = Some (JString "success") ->
  (net (HTTPClient c) req = reply StatusOK (JObject ms) ->
   exists r,
     run net (do url_parse_ok float64_ok marshal method path body c) = (c, (Some r, None))
     /\ Unmarshal (decode_Response float64_ok) Response.zero (JSONText (JObject ms)) = Some r
     /\ Response.Status r = "success"
     /\ Response.Data r = envelope_field "data" ms)
  /\ (forall code, code <> StatusOK ->
      net (HTTPClient c) req = reply code (JObject ms) ->
      exists e,
        Unmarshal (decode_Error float64_ok) Error.zero (JSONText (JObject ms)) = Some e
        /\ run net (do url_parse_ok float64_ok marshal method path body c)
           = (c, (None, Some (APIError e)))).
Proof.
  intros Hb Hwf Hst. split.
  - intros Hnet.
    destruct (decode_members_total (Response_fields float64_ok) (member_ok float64_ok)
                Response_step_total ms Response.zero Hwf) as [r Hr].
    assert (Hs : Response.Status r = "success").
    { rewrite (decode_members_proj _ Response.Status "status" upd_string Response_step_Status _ _ _ Hr).
      eapply member_fold_last_string; [| exact Hst]. discriminate. }
    exists r. rewrite run_do, Hb, Hnet, handle_reply_ok, Unmarshal_Response_object, Hr, Hs.
    split; [reflexivity |]. split; [reflexivity |]. split; [reflexivity |].
    exact (decode_members_proj _ Response.Data "data" (fun _ v => Some v) Response_step_Data _ _ _ Hr).
  - intros code Hne Hnet.
    destruct (decode_members_total (Error_fields float64_ok) (member_ok float64_ok)
                Error_step_total ms Error.zero Hwf) as [e He].
    rewrite <- Unmarshal_Error_object in He.
    exists e. split; [exact He |].
    rewrite run_do, Hb, Hnet, handle_reply_not_ok by exact Hne.
    unfold api_error. rewrite He. reflexivity.
Qed.

(** C2: when the request is sent and the server answers with a status
    code outside 200..299 and a body that parses as an error envelope,
    [do] returns a nil envelope and the [*Error] parsed from it, whose
    [Message] is the envelope's [message]. *)
Theorem do_non_2xx_returns_api_error {B} (marshal : B -> jvalue + lib_error)
    method path body c req code ms e m net :
  build_request url_parse_ok marshal c method path body = inl req ->
  net (HTTPClient c) req = reply code (JObject ms) ->
  (code < 200 \/ 300 <= code) ->
  Unmarshal (decode_Error float64_ok) Error.zero (JSONText (JObject ms)) = Some e ->
  envelope_field "message" ms = Some (JString m) ->
  run net (do url_parse_ok float64_ok marshal method path body c) = (c, (None, Some (APIError e)))
  /\ Error.Message e = m.
Proof.
  intros Hb Hnet Hcode He Hm.
  rewrite run_do, Hb, Hnet, handle_reply_not_ok by (unfold StatusOK; lia).
  unfold api_error. rewrite He. split; [reflexivity |].
  rewrite Unmarshal_Error_object in He.
  rewrite (decode_members_proj _ Error.Message "message" upd_string Error_step_Message _ _ _ He).
  eapply member_fold_last_string; [| exact Hm]. discriminate.
Qed.

(** C3: when the request is sent and the server answers with a 2xx status
    code and a well-formed envelope whose [status] is not "success", [do]
    returns a nil envelope and the [*Error] parsed from the body. *)
Theorem do_2xx_not_success_returns_api_error {B} (marshal : B -> jvalue + lib_error)
    method path body c req code ms net :
  build_request url_parse_ok marshal c method path body = inl req ->
  net (HTTPClient c) req = reply code (JObject ms) ->
  200 <= code < 300 ->
  envelope_wf float64_ok ms = true ->
  envelope_field "status" ms <> Some (JString "success") ->
  exists e,
    Unmarshal (decode_Error float64_ok) Error.zero (JSONText (JObject ms)) = Some e
    /\ run net (do url_parse_ok float64_ok marshal method path body c) = (c, (None, Some (APIError e))).
Proof.
  intros Hb Hnet Hcode Hwf Hst.
  destruct (decode_members_total (Error_fields float64_ok) (member_ok float64_ok)
              Error_step_total ms Error.zero Hwf) as [e He].
  rewrite <- Unmarshal_Error_object in He.
  exists e. split; [exact He |].
  rewrite run_do, Hb, Hnet.
  destruct (Z.eq_dec code StatusOK) as [-> | Hne].
  - rewrite handle_reply_ok, Unmarshal_Response_object.
    destruct (decode_members_total (Response_fields float64_ok) (member_ok float64_ok)
                Response_step_total ms Response.zero Hwf) as [r Hr].
    rewrite Hr.
    pose proof (decode_members_proj _ Response.Status "status" upd_string Response_step_Status _ _ _ Hr) as Hs.
    cbn [Response.Status Response.zero] in Hs.
    destruct (String.eqb (Response.Status r) "success") eqn:E.
    + exfalso. apply String.eqb_eq in E.
      destruct (member_fold_strings "status" ms "" None
                  (envelope_wf_strings "status" ms (or_introl eq_refl) Hwf) (or_intror eq_refl))
        as [H | [_ [H _]]].
      * apply Hst. unfold envelope_field. rewrite H, <- Hs, E. reflexivity.
      * rewrite <- Hs, E in H. discriminate.
    + simpl. unfold api_error. rewrite He. reflexivity.
  - rewrite handle_reply_not_ok by exact Hne. unfold api_error. rewrite He. reflexivity.
Qed.

(** C10: a [Response] that [do] returns with a nil error has [Status]
    "success"; [do] never returns a response together with an error
    ([post] is [do] with method POST). *)
Theorem do_returned_response_is_success {B} net (marshal : B -> jvalue + lib_error)
    method path body c c' r err :
  run net (do url_parse_ok float64_ok marshal method path body c) = (c', (Some r, err)) ->
  Response.Status r = "success" /\ err = None.
Proof.
  rewrite run_do. destruct (build_request _ _ _ _ _ _) as [req|]; [| discriminate].
  unfold handle_response.
  destruct (net (HTTPClient c) req) as [[code [respBody|]] | msg]; try discriminate.
  cbn [RespBody StatusCode].
  destruct (negb (code =? StatusOK)).
  - unfold api_error. destruct (Unmarshal _ _ _); discriminate.
  - destruct (Unmarshal _ _ _) as [apiResp|]; [| discriminate].
    destruct (String.eqb (Response.Status apiResp) "success") eqn:E; simpl.
    + intros H. injection H as <- <- <-. split; [apply String.eqb_eq; exact E | reflexivity].
    + unfold api_error. destruct (Unmarshal _ _ _); discriminate.
Qed.


(** *** The request [do] sends *)

Lemma sends_do {B} (marshal : B -> jvalue + lib_error) method path body c req :
  sends (do url_parse_ok float64_ok marshal method path body c) req ->
  build_request url_parse_ok marshal c method path body = inl req.
Proof.
  rewrite do_unfold. destruct (build_request _ _ _ _ _ _) as [req'|] eqn:Hb; intros H.
  - inversion H; subst; [reflexivity |].
    match goal with Hs : sends (Ret _) _ |- _ => destruct (sends_ret _ _ Hs) end.
  - destruct (sends_ret _ _ H).
Qed.

Lemma build_request_spec {B} (marshal : B -> jvalue + lib_error) c method path body req :
  build_request url_parse_ok marshal c method path body = inl req ->
  Method req = (if String.eqb method "" then "GET" else method)
  /\ URL req = BaseURL c ++ path
  /\ ReqHeader req = <["X-Server-Api-Key" := [APIKey c]]>
                       (<["Accept" := ["application/json"]]>
                          (<["Content-Type" := ["application/json"]]> ∅)).
Proof.
  unfold build_request. destruct (marshal_body marshal body) as [bodyReader|]; [| discriminate].
  unfold NewRequest.
  destruct (negb (validMethod _)); [discriminate |].
  destruct (negb (url_parse_ok _)); [discriminate |].
  intros H. injection H as <-. repeat split; reflexivity.
Qed.

Lemma sends_bind {A B} (m : M A) (f : A -> M B) c req :
  (forall a c', ~ sends (f a c') req) ->
  sends (bind m f c) req -> sends (m c) req.
Proof.
  intros Hf H. unfold bind in H.
  destruct (sends_io_bind _ _ _ H) as [Hm | [[c' a] Ha]]; [exact Hm |].
  destruct (Hf a c' Ha).
Qed.

Lemma sends_io_bind_intro {A B} (t : io A) (f : A -> io B) req :
  sends t req -> sends (io_bind t f) req.
Proof.
  induction 1; simpl; [apply sends_here | eapply sends_later; eassumption].
Qed.

Lemma sends_bind_intro {A B} (m : M A) (f : A -> M B) c req :
  sends (m c) req -> sends (bind m f c) req.
Proof. unfold bind. apply sends_io_bind_intro. Qed.

Lemma sends_do_intro {B} (marshal : B -> jvalue + lib_error) method path body c req :
  build_request url_parse_ok marshal c method path body = inl req ->
  sends (do url_parse_ok float64_ok marshal method path body c) req.
Proof. intros Hb. rewrite do_unfold, Hb. apply sends_here. Qed.

Ltac continuation_silent :=
  let r := fresh "r" in let c' := fresh "c'" in
  intros r c'; destruct r as [[?resp|] [?err|]]; cbn beta iota;
  repeat match goal with |- context [match ?u with Some _ => _ | None => _ end] => destruct u end;
  apply sends_ret.

Lemma sends_post_method_url {B} (marshal : B -> jvalue + lib_error) path body c req :
  sends (post url_parse_ok float64_ok marshal path body c) req ->
  Method req = MethodPost /\ URL req = BaseURL c ++ path.
Proof.
  intros H. apply sends_do, build_request_spec in H as [Hm [Hu _]].
  split; [exact Hm | exact Hu].
Qed.

(** C7: every request [do] sends carries [Content-Type: application/json],
    [Accept: application/json] and the API-key header with the client's
    [APIKey], each with that single value, and no other header. *)
Theorem do_request_headers {B} (marshal : B -> jvalue + lib_error) method path body c req :
  sends (do url_parse_ok float64_ok marshal method path body c) req ->
  Header_Get (ReqHeader req) "Content-Type" = "application/json"
  /\ Header_Get (ReqHeader req) "Accept" = "application/json"
  /\ Header_Get (ReqHeader req) "X-Server-API-Key" = APIKey c
  /\ ReqHeader req = <["X-Server-Api-Key" := [APIKey c]]>
                       (<["Accept" := ["application/json"]]>
                          (<["Content-Type" := ["application/json"]]> ∅)).
Proof.
  intros H. apply sends_do, build_request_spec in H as [_ [_ Hh]].
  rewrite Hh. unfold Header_Get.
  change (CanonicalMIMEHeaderKey "Content-Type") with "Content-Type".
  change (CanonicalMIMEHeaderKey "Accept") with "Accept".
  change (CanonicalMIMEHeaderKey "X-Server-API-Key") with "X-Server-Api-Key".
  repeat split; try (simplify_map_eq; reflexivity).
Qed.

(** C8: each endpoint method sends only POST requests, to the client's
    base URL followed by its path. *)
Theorem endpoints_post_to_paths c :
  (forall id req, sends (GetMessage url_parse_ok float64_ok unmarshal_Message id c) req ->
     Method req = "POST" /\ URL req = BaseURL c ++ "/messages/message")
  /\ (forall id req, sends (GetMessageDeliveries url_parse_ok float64_ok unmarshal_Deliveries id c) req ->
     Method req = "POST" /\ URL req = BaseURL c ++ "/messages/deliveries")
  /\ (forall r req, sends (SendMessage url_parse_ok float64_ok r c) req ->
     Method req = "POST" /\ URL req = BaseURL c ++ "/send/message")
  /\ (forall r req, sends (SendRaw url_parse_ok float64_ok r c) req ->
     Method req = "POST" /\ URL req = BaseURL c ++ "/send/raw").
Proof.
  refine (conj _ (conj _ (conj _ _))); intros x req H; apply sends_bind in H;
    try (apply sends_post_method_url in H; exact H); continuation_silent.
Qed.


(** *** The endpoint methods *)

Lemma run_do_client {B} net (marshal : B -> jvalue + lib_error) method path body c :
  fst (run net (do url_parse_ok float64_ok marshal method path body c)) = c.
Proof. rewrite run_do. destruct (build_request _ _ _ _ _ _); reflexivity. Qed.

(** Opens an endpoint method at its call to [post]. *)
Ltac open_endpoint Hpost :=
  rewrite run_bind;
  match goal with
  | |- context [run ?n (post ?a ?b ?m ?p ?x ?c)] =>
      pose proof (run_do_client n m MethodPost p x c) as Hc;
      unfold post in *;
      destruct (run n (do a b m MethodPost p x c)) as [c' [[?resp|] [?err|]]] eqn:Hpost;
      cbn [fst snd] in Hc |- *; subst c'
  end.

Ltac close_endpoint :=
  cbn beta iota;
  repeat match goal with |- context [match ?u with Some _ => _ | None => _ end] => destruct u end;
  reflexivity.

(** C9: no operation writes the client: [do], [post] and the four
    endpoint methods leave [BaseURL], [APIKey] and [HTTPClient] as they
    found them, whatever the network answers. *)
Theorem operations_keep_client net c :
  (forall B (marshal : B -> jvalue + lib_error) method path body,
     fst (run net (do url_parse_ok float64_ok marshal method path body c)) = c)
  /\ (forall B (marshal : B -> jvalue + lib_error) path body,
     fst (run net (post url_parse_ok float64_ok marshal path body c)) = c)
  /\ (forall id, fst (run net (GetMessage url_parse_ok float64_ok unmarshal_Message id c)) = c)
  /\ (forall id, fst (run net (GetMessageDeliveries url_parse_ok float64_ok unmarshal_Deliveries id c)) = c)
  /\ (forall r, fst (run net (SendMessage url_parse_ok float64_ok r c)) = c)
  /\ (forall r, fst (run net (SendRaw url_parse_ok float64_ok r c)) = c).
Proof.
  refine (conj _ (conj _ (conj _ (conj _ (conj _ _))))).
  - intros. apply run_do_client.
  - intros. apply run_do_client.
  - intros id. unfold GetMessage. open_endpoint Hpost; close_endpoint.
  - intros id. unfold GetMessageDeliveries. open_endpoint Hpost; close_endpoint.
  - intros r. unfold SendMessage. open_endpoint Hpost; close_endpoint.
  - intros r. unfold SendRaw. open_endpoint Hpost; close_endpoint.
Qed.

(** C6: when the call to [post] returns an error, each endpoint method
    returns a nil result and that same error. *)
Theorem endpoints_return_transport_error net c e :
  (forall id r, snd (run net (post url_parse_ok float64_ok marshal_id_map "/messages/message" (Some id) c)) = (r, Some e) ->
     snd (run net (GetMessage url_parse_ok float64_ok unmarshal_Message id c)) = (None, Some e))
  /\ (forall id r, snd (run net (post url_parse_ok float64_ok marshal_id_map "/messages/deliveries" (Some id) c)) = (r, Some e) ->
     snd (run net (GetMessageDeliveries url_parse_ok float64_ok unmarshal_Deliveries id c)) = ([], Some e))
  /\ (forall req r, snd (run net (post url_parse_ok float64_ok (marshal_ptr SendMessageRequest.marshal) "/send/message" (Some req) c)) = (r, Some e) ->
     snd (run net (SendMessage url_parse_ok float64_ok req c)) = (None, Some e))
  /\ (forall req r, snd (run net (post url_parse_ok float64_ok (marshal_ptr SendRawRequest.marshal) "/send/raw" (Some req) c)) = (r, Some e) ->
     snd (run net (SendRaw url_parse_ok float64_ok req c)) = (None, Some e)).
Proof.
  refine (conj _ (conj _ (conj _ _))); intros x r H;
    [unfold GetMessage | unfold GetMessageDeliveries | unfold SendMessage | unfold SendRaw];
    unfold post in H; open_endpoint Hpost; cbn [snd] in H; try discriminate H;
    injection H as _ ->; reflexivity.
Qed.

(** C4: when the call to [post] succeeds but the envelope's [data] does
    not decode into the method's result type, each endpoint method
    returns a nil result and a response-parsing error. *)
Theorem endpoints_reject_malformed_data net c resp :
  (forall id, snd (run net (post url_parse_ok float64_ok marshal_id_map "/messages/message" (Some id) c)) = (Some resp, None) ->
     unmarshal_Message (raw_bytes (Response.Data resp)) = None ->
     snd (run net (GetMessage url_parse_ok float64_ok unmarshal_Message id c))
     = (None, Some (Errorf "error unmarshaling response" ErrJSON)))
  /\ (forall id, snd (run net (post url_parse_ok float64_ok marshal_id_map "/messages/deliveries" (Some id) c)) = (Some resp, None) ->
     unmarshal_Deliveries (raw_bytes (Response.Data resp)) = None ->
     snd (run net (GetMessageDeliveries url_parse_ok float64_ok unmarshal_Deliveries id c))
     = ([], Some (Errorf "error unmarshaling response" ErrJSON)))
  /\ (forall req, snd (run net (post url_parse_ok float64_ok (marshal_ptr SendMessageRequest.marshal) "/send/message" (Some req) c)) = (Some resp, None) ->
     Unmarshal SendMessageResponse.decode SendMessageResponse.zero (raw_bytes (Response.Data resp)) = None ->
     snd (run net (SendMessage url_parse_ok float64_ok req c))
     = (None, Some (Errorf "error unmarshaling send response" ErrJSON)))
  /\ (forall req, snd (run net (post url_parse_ok float64_ok (marshal_ptr SendRawRequest.marshal) "/send/raw" (Some req) c)) = (Some resp, None) ->
     Unmarshal SendMessageResponse.decode SendMessageResponse.zero (raw_bytes (Response.Data resp)) = None ->
     snd (run net (SendRaw url_parse_ok float64_ok req c))
     = (None, Some (Errorf "error unmarshaling send response" ErrJSON))).
Proof.
  refine (conj _ (conj _ (conj _ _))); intros x H Hd;
    [unfold GetMessage | unfold GetMessageDeliveries | unfold SendMessage | unfold SendRaw];
    unfold post in H; open_endpoint Hpost; cbn [snd] in H; try discriminate H;
    injection H as ->; cbn beta iota; rewrite Hd; reflexivity.
Qed.

(** C5: [SendMessage] with [To] ["a@b.com"] and [From] "c@d.com", against
    a server answering 200 with
    [{"status":"success","data":{"message_id":123,"token":"t"}}], returns
    the response with [MessageID] 123 and [Token] "t" and a nil error. *)
Theorem SendMessage_stub_server_example req c net :
  SendMessageRequest.To req = ["a@b.com"] ->
  SendMessageRequest.From req = "c@d.com" ->
  url_parse_ok (BaseURL c ++ "/send/message") = true ->
  (forall hc r, net hc r =
     reply 200 (JObject [("status", JString "success");
                         ("data", JObject [("message_id", JNumber "123"); ("token", JString "t")])])) ->
  run net (SendMessage url_parse_ok float64_ok (Some req) c)
  = (c, (Some (SendMessageResponse.mk 123 "t"), None)).
Proof.
  intros _ _ Hurl Hnet.
  unfold SendMessage. rewrite run_bind. unfold post. rewrite run_do.
  destruct (build_request _ _ _ _ _ _) as [r0 | err] eqn:Hb.
  - rewrite Hnet. reflexivity.
  - exfalso. unfold build_request, NewRequest in Hb. cbv beta zeta in Hb.
    rewrite Hurl in Hb. vm_compute in Hb. discriminate Hb.
Qed.

(* ------------------------------------------------------------------ *)
(** *** Further properties of the transport wrapper *)

Lemma trace_io_bind {A B} net (t : io A) (f : A -> io B) :
  trace net (io_bind t f) = app (trace net t) (trace net (f (run net t))).
Proof. induction t as [a | hc req k IH]; simpl; [reflexivity | rewrite IH; reflexivity]. Qed.

Lemma trace_bind {A B} net (m : M A) (f : A -> M B) c :
  trace net (bind m f c) =
  app (trace net (m c)) (let '(c', a) := run net (m c) in trace net (f a c')).
Proof. unfold bind. rewrite trace_io_bind. destruct (run net (m c)); reflexivity. Qed.

Lemma trace_do {B} net (marshal : B -> jvalue + lib_error) method path body c :
  trace net (do url_parse_ok float64_ok marshal method path body c) =
  match build_request url_parse_ok marshal c method path body with
  | inl req => [req]
  | inr _ => []
  end.
Proof. rewrite do_unfold. destruct (build_request _ _ _ _ _ _); reflexivity. Qed.

(** When [json.Marshal] fails on the body, [do] sends no request and
    returns a nil response and the error wrapped as "error marshaling
    request body". *)
Theorem do_marshal_error_sends_nothing {B} net (marshal : B -> jvalue + lib_error)
    method path b c err :
  marshal b = inr err ->
  trace net (do url_parse_ok float64_ok marshal method path (Some b) c) = []
  /\ run net (do url_parse_ok float64_ok marshal method path (Some b) c)
     = (c, (None, Some (Errorf "error marshaling request body" err))).
Proof.
  intros H. rewrite trace_do, run_do. unfold build_request, marshal_body.
  rewrite H. split; reflexivity.
Qed.

(** When [url.Parse] rejects [BaseURL + path], [do] sends no request and
    returns a nil response and the error wrapped as "error creating
    request". *)
Theorem do_url_rejected_sends_nothing {B} net (marshal : B -> jvalue + lib_error)
    method path body c v :
  marshal_body marshal body = inl v ->
  validMethod (if String.eqb method "" then "GET" else method) = true ->
  url_parse_ok (BaseURL c ++ path) = false ->
  trace net (do url_parse_ok float64_ok marshal method path body c) = []
  /\ run net (do url_parse_ok float64_ok marshal method path body c)
     = (c, (None, Some (Errorf "error creating request" (ErrURL (BaseURL c ++ path))))).
Proof.
  intros Hm Hv Hu. rewrite trace_do, run_do. unfold build_request, NewRequest.
  cbv beta zeta. rewrite Hm, Hv, Hu. split; reflexivity.
Qed.

(** A method that is not an HTTP token (and not empty, which
    [http.NewRequest] turns into GET) makes [do] send no request and return
    the error wrapped as "error creating request". *)
Theorem do_invalid_method_sends_nothing {B} net (marshal : B -> jvalue + lib_error)
    method path body c v :
  marshal_body marshal body = inl v ->
  method <> "" ->
  validMethod method = false ->
  trace net (do url_parse_ok float64_ok marshal method path body c) = []
  /\ run net (do url_parse_ok float64_ok marshal method path body c)
     = (c, (None, Some (Errorf "error creating request" (ErrMethod method)))).
Proof.
  intros Hm Hne Hv. rewrite trace_do, run_do. unfold build_request, NewRequest.
  cbv beta zeta. rewrite Hm. apply String.eqb_neq in Hne. rewrite Hne. cbv iota.
  rewrite Hv. split; reflexivity.
Qed.

(** The request [do] sends: its method is the given one ([""] becomes
    GET), its URL is [BaseURL + path], and its body is the marshaled
    [body], none for a nil body. *)
Theorem do_request_shape {B} (marshal : B -> jvalue + lib_error) method path body c req :
  sends (do url_parse_ok float64_ok marshal method path body c) req ->
  Method req = (if String.eqb method "" then "GET" else method)
  /\ URL req = BaseURL c ++ path
  /\ marshal_body marshal body = inl (ReqBody req).
Proof.
  intros Hs. apply sends_do in Hs.
  destruct (build_request_spec _ _ _ _ _ _ Hs) as [Hm [Hu _]].
  split; [exact Hm | split; [exact Hu |]].
  revert Hs. unfold build_request.
  destruct (marshal_body marshal body) as [bodyReader|]; [| discriminate].
  unfold NewRequest. destruct (negb (validMethod _)); [discriminate |].
  destruct (negb (url_parse_ok _)); [discriminate |].
  intros H. injection H as <-. reflexivity.
Qed.

Ltac trace_endpoint :=
  rewrite trace_bind; unfold post; rewrite run_do, trace_do;
  destruct (build_request _ _ _ _ _ _); cbn beta iota;
  [ destruct (handle_response _ _) as [[?resp|] [?err|]]; cbn beta iota;
    repeat match goal with |- context [match ?u with Some _ => _ | None => _ end] => destruct u end
  | ];
  reflexivity.

(** Each call sends at most one request, never retrying: [do] and each
    endpoint method send exactly the request [do] builds when it can be
    built, and nothing otherwise, whatever the network answers. *)
Theorem operations_send_one_request net c :
  (forall B (marshal : B -> jvalue + lib_error) method path body,
     trace net (do url_parse_ok float64_ok marshal method path body c)
     = match build_request url_parse_ok marshal c method path body with
       | inl req => [req] | inr _ => [] end)
  /\ (forall id, trace net (GetMessage url_parse_ok float64_ok unmarshal_Message id c)
     = match build_request url_parse_ok marshal_id_map c MethodPost "/messages/message" (Some id) with
       | inl req => [req] | inr _ => [] end)
  /\ (forall id, trace net (GetMessageDeliveries url_parse_ok float64_ok unmarshal_Deliveries id c)
     = match build_request url_parse_ok marshal_id_map c MethodPost "/messages/deliveries" (Some id) with
       | inl req => [req] | inr _ => [] end)
  /\ (forall r, trace net (SendMessage url_parse_ok float64_ok r c)
     = match build_request url_parse_ok (marshal_ptr SendMessageRequest.marshal) c MethodPost
               "/send/message" (Some r) with
       | inl req => [req] | inr _ => [] end)
  /\ (forall r, trace net (SendRaw url_parse_ok float64_ok r c)
     = match build_request url_parse_ok (marshal_ptr SendRawRequest.marshal) c MethodPost
               "/send/raw" (Some r) with
       | inl req => [req] | inr _ => [] end).
Proof.
  refine (conj _ (conj _ (conj _ (conj _ _)))).
  - intros B marshal method path body. apply trace_do.
  - intros id. unfold GetMessage. trace_endpoint.
  - intros id. unfold GetMessageDeliveries. trace_endpoint.
  - intros r. unfold SendMessage. trace_endpoint.
  - intros r. unfold SendRaw. trace_endpoint.
Qed.

(** When [HTTPClient.Do] fails, or the body cannot be read, [do] returns a
    nil response and the error wrapped as "error performing request" or
    "error reading response body". *)
Theorem do_transport_and_read_errors {B} net (marshal : B -> jvalue + lib_error)
    method path body c req :
  build_request url_parse_ok marshal c method path body = inl req ->
  (forall msg, net (HTTPClient c) req = NetErr msg ->
     run net (do url_parse_ok float64_ok marshal method path body c)
     = (c, (None, Some (Errorf "error performing request" (ErrNet msg)))))
  /\ (forall code, net (HTTPClient c) req = NetOK (mkHttpResponse code None) ->
     run net (do url_parse_ok float64_ok marshal method path body c)
     = (c, (None, Some (Errorf "error reading response body" ErrRead)))).
Proof.
  intros Hb. split; intros x Hn; rewrite run_do, Hb, Hn; reflexivity.
Qed.

(** A body that is not a JSON object (nor [null]), or not JSON at all,
    makes [do] return a nil response and a JSON error: "error unmarshaling
    response" for status 200, "error unmarshaling error response" for any
    other status. *)
Theorem do_body_not_an_object {B} net (marshal : B -> jvalue + lib_error)
    method path body c req code b :
  build_request url_parse_ok marshal c method path body = inl req ->
  net (HTTPClient c) req = NetOK (mkHttpResponse code (Some b)) ->
  (forall ms, b <> JSONText (JObject ms)) ->
  b <> JSONText JNull ->
  run net (do url_parse_ok float64_ok marshal method path body c)
  = (c, (None, Some (Errorf (if code =? StatusOK then "error unmarshaling response"
                            else "error unmarshaling error response") ErrJSON))).
Proof.
  intros Hb Hn Hobj Hnull. rewrite run_do, Hb, Hn.
  unfold handle_response, api_error; cbn [RespBody StatusCode].
  destruct b as [[] | raw];
    try (exfalso; solve [eapply Hobj; reflexivity | apply Hnull; reflexivity]);
    destruct (code =? StatusOK); reflexivity.
Qed.

(** A JSON [null] body, whatever the status code, makes [do] return a nil
    response and an [*Error] with every field zero: [null] leaves the
    [Response] zero, whose [Status] is not "success". *)
Theorem do_null_body_zero_error {B} net (marshal : B -> jvalue + lib_error)
    method path body c req code :
  build_request url_parse_ok marshal c method path body = inl req ->
  net (HTTPClient c) req = reply code JNull ->
  run net (do url_parse_ok float64_ok marshal method path body c)
  = (c, (None, Some (APIError Error.zero))).
Proof.
  intros Hb Hn. rewrite run_do, Hb, Hn.
  unfold handle_response, api_error, reply; cbn [RespBody StatusCode].
  destruct (code =? StatusOK); reflexivity.
Qed.

Lemma Error_step_Status :
  forall x k v x', member_step (Error_fields float64_ok) x (k, v) = Some x' ->
  Error.Status x' = if String.eqb (foldName k) (foldName "status")
                    then upd_string (Error.Status x) v else Error.Status x.
Proof. step_proj find_field_Error. Qed.

Lemma envelope_string_fold name ms :
  In name ["status"; "error_code"; "message"] ->
  envelope_wf float64_ok ms = true ->
  member_fold name upd_string ms "" = envelope_string name ms.
Proof.
  intros Hn Hwf. unfold envelope_string, envelope_field.
  destruct (member_fold_strings name ms "" None (envelope_wf_strings name ms Hn Hwf)
              (or_intror eq_refl)) as [H | [H [H' _]]];
    rewrite H; [reflexivity | exact H'].
Qed.

(** The text of an [*Error] [do] returns for a well-formed envelope (with
    any status code) is "postal API error: <status> - <message>", the
    envelope's [status] and [message] strings (empty when absent). *)
Theorem do_api_error_text {B} net (marshal : B -> jvalue + lib_error)
    method path body c req code ms c' e :
  build_request url_parse_ok marshal c method path body = inl req ->
  net (HTTPClient c) req = reply code (JObject ms) ->
  envelope_wf float64_ok ms = true ->
  run net (do url_parse_ok float64_ok marshal method path body c) = (c', (None, Some (APIError e))) ->
  goerror_Error lib_text (APIError e)
  = "postal API error: " ++ envelope_string "status" ms ++ " - " ++ envelope_string "message" ms.
Proof.
  intros Hb Hn Hwf Hr. rewrite run_do, Hb, Hn in Hr.
  assert (He : Unmarshal (decode_Error float64_ok) Error.zero (JSONText (JObject ms)) = Some e).
  { destruct (code =? StatusOK) eqn:Ec.
    - apply Z.eqb_eq in Ec. subst code. rewrite handle_reply_ok in Hr.
      destruct (Unmarshal (decode_Response float64_ok) _ _) as [r|]; [| discriminate Hr].
      destruct (negb _); [| discriminate Hr].
      unfold api_error in Hr.
      destruct (Unmarshal (decode_Error float64_ok) _ _) as [e0|]; [| discriminate Hr].
      congruence.
    - apply Z.eqb_neq in Ec. rewrite (handle_reply_not_ok _ _ Ec) in Hr.
      unfold api_error in Hr.
      destruct (Unmarshal (decode_Error float64_ok) _ _) as [e0|]; [| discriminate Hr].
      congruence. }
  rewrite Unmarshal_Error_object in He.
  pose proof (decode_members_proj _ Error.Status "status" upd_string Error_step_Status _ _ _ He) as Hs.
  pose proof (decode_members_proj _ Error.Message "message" upd_string Error_step_Message _ _ _ He) as Hm.
  cbn [goerror_Error]. unfold Error_Error. rewrite Hs, Hm. cbn [Error.Status Error.Message Error.zero].
  rewrite (envelope_string_fold "status" ms) by (simpl; tauto || exact Hwf).
  rewrite (envelope_string_fold "message" ms) by (simpl; tauto || exact Hwf).
  reflexivity.
Qed.

(** *** Headers *)

Lemma is_token_byte_lower c : is_token_byte (lower_ascii c) = is_token_byte c.
Proof. destruct c as [[] [] [] [] [] [] [] []]; reflexivity. Qed.

Lemma all_token_lower s : all_token (lower s) = all_token s.
Proof.
  induction s as [| c r IH]; [reflexivity |].
  cbn [lower all_token]. rewrite IH, is_token_byte_lower. reflexivity.
Qed.

#[warnings="-inconsistent-scopes"]
Local Abbreviation canonical_char b c :=
  (if b && (97 <=? nat_of_ascii c)%nat && (nat_of_ascii c <=? 122)%nat
   then ascii_of_nat (nat_of_ascii c - 32)
   else if negb b && (65 <=? nat_of_ascii c)%nat && (nat_of_ascii c <=? 90)%nat
   then ascii_of_nat (nat_of_ascii c + 32)
   else c).

Lemma canonical_char_lower b c : canonical_char b (lower_ascii c) = canonical_char b c.
Proof. destruct c as [[] [] [] [] [] [] [] []]; destruct b; reflexivity. Qed.

Lemma lower_canonical_char b c : lower_ascii (canonical_char b c) = lower_ascii c.
Proof. destruct c as [[] [] [] [] [] [] [] []]; destruct b; reflexivity. Qed.

Lemma is_token_byte_canonical_char b c : is_token_byte (canonical_char b c) = is_token_byte c.
Proof. destruct c as [[] [] [] [] [] [] [] []]; destruct b; reflexivity. Qed.

Lemma canonical_case_lower s : forall b, canonical_case b (lower s) = canonical_case b s.
Proof.
  induction s as [| c r IH]; intros b; [reflexivity |].
  cbn [lower canonical_case]. rewrite canonical_char_lower, IH. reflexivity.
Qed.

Lemma lower_canonical_case s : forall b, lower (canonical_case b s) = lower s.
Proof.
  induction s as [| c r IH]; intros b; [reflexivity |].
  cbn [lower canonical_case]. rewrite lower_canonical_char, IH. reflexivity.
Qed.

Lemma all_token_canonical_case s : forall b, all_token (canonical_case b s) = all_token s.
Proof.
  induction s as [| c r IH]; intros b; [reflexivity |].
  cbn [all_token canonical_case]. rewrite is_token_byte_canonical_char, IH. reflexivity.
Qed.

(** Two keys, the first a token, have the same canonical form exactly
    when they are equal up to ASCII case. *)
Lemma CanonicalMIMEHeaderKey_eq k k' :
  all_token k = true ->
  CanonicalMIMEHeaderKey k' = CanonicalMIMEHeaderKey k <-> lower k' = lower k.
Proof.
  intros Hk. unfold CanonicalMIMEHeaderKey. rewrite Hk. split.
  - destruct (all_token k') eqn:Hk'.
    + intros H. rewrite <- (lower_canonical_case k' true), H. apply lower_canonical_case.
    + intros H. exfalso. rewrite H, all_token_canonical_case in Hk'. congruence.
  - intros H.
    assert (Hk' : all_token k' = true) by (rewrite <- all_token_lower, H, all_token_lower; exact Hk).
    rewrite Hk', <- (canonical_case_lower k'), H, canonical_case_lower. reflexivity.
Qed.

(** [Header.Set] then [Header.Get] with a token key: the value is found
    under any spelling of the key that differs only in ASCII case, and
    every other key keeps what it had. *)
Theorem Header_Set_Get h k k' v :
  all_token k = true ->
  Header_Get (Header_Set h k v) k'
  = if String.eqb (lower k') (lower k) then v else Header_Get h k'.
Proof.
  intros Hk. unfold Header_Get, Header_Set.
  destruct (String.eqb_spec (lower k') (lower k)) as [E | E].
  - apply (CanonicalMIMEHeaderKey_eq k k' Hk) in E. rewrite E. simplify_map_eq. reflexivity.
  - rewrite lookup_insert_ne; [reflexivity |].
    intros H. apply E. apply (CanonicalMIMEHeaderKey_eq k k' Hk). symmetry. exact H.
Qed.

(** *** Integers: [strconv] formatting and parsing *)

Lemma str_app_assoc (s1 s2 s3 : string) : (s1 ++ s2) ++ s3 = s1 ++ (s2 ++ s3).
Proof. induction s1 as [| c r IH]; [reflexivity | exact (f_equal (String c) IH)]. Qed.

Lemma str_app_nil (s : string) : s ++ "" = s.
Proof. induction s as [| c r IH]; [reflexivity | exact (f_equal (String c) IH)]. Qed.

Lemma digits_value_app s1 s2 a :
  digits_value (s1 ++ s2) a =
  match digits_value s1 a with Some a' => digits_value s2 a' | None => None end.
Proof.
  revert a. induction s1 as [| c r IH]; intros a; [reflexivity |].
  simpl. destruct (_ && _); [apply IH | reflexivity].
Qed.

Lemma digit_char_value d r a :
  0 <= d < 10 ->
  digits_value (String (ascii_of_nat (Z.to_nat (48 + d))) r) a = digits_value r (a * 10 + d).
Proof.
  intros Hd. cbn [digits_value].
  rewrite Ascii.nat_ascii_embedding by lia. rewrite Z2Nat.id by lia.
  replace ((48 <=? 48 + d) && (48 + d <=? 57)) with true
    by (symmetry; apply andb_true_intro; split; apply Z.leb_le; lia).
  f_equal. lia.
Qed.

Lemma digit_char_not_minus d : 0 <= d < 10 -> ascii_of_nat (Z.to_nat (48 + d)) <> "-"%char.
Proof.
  intros Hd H. apply (f_equal nat_of_ascii) in H.
  rewrite Ascii.nat_ascii_embedding in H by lia. change (nat_of_ascii "-") with 45%nat in H. lia.
Qed.

Lemma digits_of_spec f : forall n acc,
  (1 <= f)%nat -> 0 <= n < 10 ^ Z.of_nat f ->
  exists c r, digits_of f n acc = String c r ++ acc /\ c <> "-"%char
              /\ digits_value (String c r) 0 = Some n.
Proof.
  induction f as [| f IH]; intros n acc Hf Hn; [lia |].
  cbn [digits_of].
  assert (Hd : 0 <= n mod 10 < 10) by (apply Z.mod_pos_bound; lia).
  destruct (n / 10 =? 0) eqn:Hq.
  - apply Z.eqb_eq in Hq.
    exists (ascii_of_nat (Z.to_nat (48 + n mod 10))), "". split; [reflexivity |].
    split; [apply digit_char_not_minus; exact Hd |].
    rewrite digit_char_value by exact Hd. cbn [digits_value]. f_equal.
    pose proof (Z.div_mod n 10 ltac:(lia)). lia.
  - apply Z.eqb_neq in Hq.
    assert (Hq0 : 0 < n / 10) by (pose proof (Z.div_pos n 10 ltac:(lia) ltac:(lia)); lia).
    assert (Hf' : (1 <= f)%nat).
    { destruct f; [| lia]. exfalso. simpl in Hn.
      assert (n / 10 = 0) by (apply Z.div_small; lia). lia. }
    assert (Hn' : 0 <= n / 10 < 10 ^ Z.of_nat f).
    { split; [lia |]. apply Z.div_lt_upper_bound; [lia |].
      rewrite Nat2Z.inj_succ, Z.pow_succ_r in Hn by lia. lia. }
    destruct (IH (n / 10) (String (ascii_of_nat (Z.to_nat (48 + n mod 10))) acc) Hf' Hn')
      as [c [r [Heq [Hc Hv]]]].
    exists c, (r ++ String (ascii_of_nat (Z.to_nat (48 + n mod 10))) "").
    split.
    { rewrite Heq. set (d := ascii_of_nat (Z.to_nat (48 + n mod 10))).
      change (String c (r ++ String d acc) = String c ((r ++ String d "") ++ acc)).
      rewrite str_app_assoc. reflexivity. }
    split; [exact Hc |].
    change (String c (r ++ String (ascii_of_nat (Z.to_nat (48 + n mod 10))) ""))
      with (String c r ++ String (ascii_of_nat (Z.to_nat (48 + n mod 10))) "").
    rewrite digits_value_app, Hv, digit_char_value by exact Hd. cbn [digits_value]. f_equal.
    pose proof (Z.div_mod n 10 ltac:(lia)). lia.
Qed.

Lemma itoa_fuel z :
  let fuel := Z.to_nat (Z.log2 (Z.abs z) + 2) in
  (1 <= fuel)%nat /\ Z.abs z < 10 ^ Z.of_nat fuel.
Proof.
  intros fuel. pose proof (Z.log2_nonneg (Z.abs z)) as Hl.
  assert (Hf : Z.of_nat fuel = Z.log2 (Z.abs z) + 2) by (unfold fuel; rewrite Z2Nat.id; lia).
  split; [lia |]. rewrite Hf.
  assert (H2 : Z.abs z < 2 ^ (Z.log2 (Z.abs z) + 2)).
  { destruct (Z.eq_dec (Z.abs z) 0) as [E | E].
    - rewrite E in *. apply Z.pow_pos_nonneg; lia.
    - destruct (Z.log2_spec (Z.abs z)) as [_ H]; [lia |].
      apply (Z.lt_le_trans _ _ _ H). apply Z.pow_le_mono_r; lia. }
  apply (Z.lt_le_trans _ _ _ H2). apply Z.pow_le_mono_l. lia.
Qed.

Lemma ParseInt64_digit_start c r :
  c <> "-"%char ->
  ParseInt64 (String c r) =
  match digits_value (String c r) 0 with
  | Some z => if (- 2 ^ 63 <=? z) && (z <? 2 ^ 63) then Some z else None
  | None => None
  end.
Proof.
  intros Hc. unfold ParseInt64.
  destruct c as [[] [] [] [] [] [] [] []];
    first [reflexivity | exfalso; apply Hc; reflexivity].
Qed.

Lemma ParseInt64_itoa_roundtrip z : is_int64 z = true -> ParseInt64 (itoa z) = Some z.
Proof.
  unfold is_int64. intros Hr. destruct (itoa_fuel z) as [Hf Hb]. unfold itoa.
  set (fuel := Z.to_nat (Z.log2 (Z.abs z) + 2)) in *.
  destruct (z <? 0) eqn:Hneg.
  - apply Z.ltb_lt in Hneg.
    destruct (digits_of_spec _ (- z) "" Hf ltac:(lia)) as [c [r [Heq [_ Hv]]]].
    rewrite Heq, str_app_nil. unfold ParseInt64. cbv beta iota zeta.
    rewrite Hv. cbn [option_map]. rewrite Z.opp_involutive, Hr. reflexivity.
  - apply Z.ltb_ge in Hneg.
    destruct (digits_of_spec _ z "" Hf ltac:(lia)) as [c [r [Heq [Hc Hv]]]].
    rewrite Heq, str_app_nil, (ParseInt64_digit_start _ _ Hc), Hv, Hr. reflexivity.
Qed.

(** [strconv.Itoa] and [strconv.ParseInt(s, 10, 64)] are inverse on every
    int64: the literal an [int] field (such as the [id] of the request
    bodies, or [Size] of an attachment) is encoded to decodes back to the
    same number. *)
Theorem ParseInt64_itoa z : is_int64 z = true -> ParseInt64 (itoa z) = Some z.
Proof. exact (ParseInt64_itoa_roundtrip z). Qed.

(** *** Encoding a [map[string]string] *)

Lemma insert_member_sorted_cons kv l : forall y,
  keys_sorted (y :: l) = true -> String.leb (fst y) (fst kv) = true ->
  keys_sorted (y :: insert_member kv l) = true.
Proof.
  induction l as [| z l IH]; intros y Hs Hy.
  - simpl. rewrite Hy. reflexivity.
  - cbn [insert_member]. cbn [keys_sorted] in Hs. apply andb_prop in Hs as [Hyz Hs].
    destruct (String.leb (fst kv) (fst z)) eqn:E.
    + cbn [keys_sorted]. rewrite Hy, E, Hs. reflexivity.
    + change (keys_sorted (y :: z :: insert_member kv l))
        with (String.leb (fst y) (fst z) && keys_sorted (z :: insert_member kv l)).
      rewrite Hyz. apply IH; [exact Hs |].
      destruct (String.leb_total (fst kv) (fst z)) as [H | H]; congruence.
Qed.

Lemma insert_member_sorted kv l : keys_sorted l = true -> keys_sorted (insert_member kv l) = true.
Proof.
  destruct l as [| z l]; intros Hs; [reflexivity |].
  cbn [insert_member]. destruct (String.leb (fst kv) (fst z)) eqn:E.
  - change (keys_sorted (kv :: z :: l)) with (String.leb (fst kv) (fst z) && keys_sorted (z :: l)).
    rewrite E, Hs. reflexivity.
  - apply insert_member_sorted_cons; [exact Hs |].
    destruct (String.leb_total (fst kv) (fst z)) as [H | H]; congruence.
Qed.

Lemma insert_member_perm kv l : Permutation (insert_member kv l) (kv :: l).
Proof.
  induction l as [| z l IH]; [reflexivity |].
  cbn [insert_member]. destruct (String.leb (fst kv) (fst z)); [reflexivity |].
  eapply perm_trans; [apply perm_skip, IH | apply perm_swap].
Qed.

(** A non-empty [map[string]string] (the [Headers] of a request) is
    encoded as an object holding exactly its entries, listed by key in
    increasing bytewise order. *)
Theorem enc_string_map_sorted m :
  m <> [] ->
  exists ms, enc_string_map m = JObject ms
    /\ keys_sorted ms = true
    /\ Permutation ms (map (fun '(k, v) => (k, JString v)) m).
Proof.
  intros Hm. destruct m as [| kv m]; [congruence |].
  eexists. split; [reflexivity |].
  generalize (map (fun '(k, v) => (k, JString v)) (kv :: m)) as l.
  induction l as [| x l [IHs IHp]]; [split; reflexivity |].
  cbn [fold_right]. split.
  - apply insert_member_sorted. exact IHs.
  - eapply perm_trans; [apply insert_member_perm | apply perm_skip, IHp].
Qed.

(** *** The send methods return the ids the server sent *)

Lemma handle_success_envelope ms :
  envelope_wf float64_ok ms = true ->
  envelope_field "status" ms = Some (JString "success") ->
  exists r, handle_response float64_ok (reply StatusOK (JObject ms)) = (Some r, None)
            /\ Response.Data r = envelope_field "data" ms.
Proof.
  intros Hwf Hst.
  destruct (decode_members_total (Response_fields float64_ok) (member_ok float64_ok)
              Response_step_total ms Response.zero Hwf) as [r Hr].
  assert (Hs : Response.Status r = "success").
  { rewrite (decode_members_proj _ Response.Status "status" upd_string Response_step_Status _ _ _ Hr).
    eapply member_fold_last_string; [| exact Hst]. discriminate. }
  exists r. rewrite handle_reply_ok, Unmarshal_Response_object, Hr, Hs.
  split; [reflexivity |].
  exact (decode_members_proj _ Response.Data "data" (fun _ v => Some v) Response_step_Data _ _ _ Hr).
Qed.

Lemma SendMessageResponse_decode_ids z t :
  is_int64 z = true ->
  Unmarshal SendMessageResponse.decode SendMessageResponse.zero
    (JSONText (JObject [("message_id", JNumber (itoa z)); ("token", JString t)]))
  = Some (SendMessageResponse.mk z t).
Proof.
  intros Hz. cbv -[ParseInt64 itoa].
  rewrite (ParseInt64_itoa_roundtrip z Hz). reflexivity.
Qed.

Lemma build_request_post_ok {B} (marshal : B -> jvalue + lib_error) c path x v :
  marshal x = inl v -> url_parse_ok (BaseURL c ++ path) = true ->
  exists req, build_request url_parse_ok marshal c MethodPost path (Some x) = inl req.
Proof.
  intros Hm Hu. unfold build_request, marshal_body, NewRequest. cbv beta zeta.
  rewrite Hm, Hu. eexists. reflexivity.
Qed.

(** Against a server that answers 200 with a well-formed envelope whose
    [status] is "success" and whose [data] is
    [{"message_id": z, "token": t}] (its other members, such as [time] and
    [flags], being arbitrary), for any int64 [z] and any string [t],
    [SendMessage] and [SendRaw] return the response with [MessageID] [z]
    and [Token] [t] and a nil error. *)
Theorem send_methods_return_sent_ids reqm reqr c net ms z t :
  url_parse_ok (BaseURL c ++ "/send/message") = true ->
  url_parse_ok (BaseURL c ++ "/send/raw") = true ->
  is_int64 z = true ->
  envelope_wf float64_ok ms = true ->
  envelope_field "status" ms = Some (JString "success") ->
  envelope_field "data" ms
  = Some (JObject [("message_id", JNumber (itoa z)); ("token", JString t)]) ->
  (forall hc r, net hc r = reply StatusOK (JObject ms)) ->
  run net (SendMessage url_parse_ok float64_ok reqm c)
  = (c, (Some (SendMessageResponse.mk z t), None))
  /\ run net (SendRaw url_parse_ok float64_ok reqr c)
  = (c, (Some (SendMessageResponse.mk z t), None)).
Proof.
  intros Hm Hr Hz Hwf Hst Hd Hnet.
  destruct (handle_success_envelope ms Hwf Hst) as [resp [Hh Hdata]].
  split.
  - unfold SendMessage. rewrite run_bind. unfold post. rewrite run_do.
    destruct (build_request_post_ok (marshal_ptr SendMessageRequest.marshal) c "/send/message" reqm
                (match reqm with Some r => SendMessageRequest.marshal r | None => JNull end)
                ltac:(destruct reqm; reflexivity) Hm) as [req Hb].
    rewrite Hb, Hnet, Hh. cbn beta iota.
    unfold raw_bytes. rewrite Hdata, Hd, (SendMessageResponse_decode_ids z t Hz). reflexivity.
  - unfold SendRaw. rewrite run_bind. unfold post. rewrite run_do.
    destruct (build_request_post_ok (marshal_ptr SendRawRequest.marshal) c "/send/raw" reqr
                (match reqr with Some r => SendRawRequest.marshal r | None => JNull end)
                ltac:(destruct reqr; reflexivity) Hr) as [req Hb].
    rewrite Hb, Hnet, Hh. cbn beta iota.
    unfold raw_bytes. rewrite Hdata, Hd, (SendMessageResponse_decode_ids z t Hz). reflexivity.
Qed.

(** *** base64 *)

Lemma encode_sextet_in v :
  existsb (Ascii.eqb (encode_sextet v)) (list_ascii_of_string encodeStd) = true.
Proof.
  unfold encode_sextet.
  assert (Hn : (Z.to_nat (Z.land v 63) < 64)%nat).
  { change 63 with (Z.ones 6). rewrite Z.land_ones by lia.
    pose proof (Z.mod_pos_bound v (2 ^ 6) ltac:(lia)). change (2 ^ 6) with 64 in *. lia. }
  generalize dependent (Z.to_nat (Z.land v 63)). intros n Hn.
  do 64 (destruct n as [| n]; [reflexivity |]). lia.
Qed.

Lemma chars_in_app a s1 s2 : chars_in a (s1 ++ s2) = chars_in a s1 && chars_in a s2.
Proof.
  induction s1 as [| c r IH]; [reflexivity |].
  change (String c r ++ s2) with (String c (r ++ s2)).
  cbn [chars_in]. rewrite IH, andb_assoc. reflexivity.
Qed.

Lemma encode_groups_ind (P : string -> Prop) :
  P EmptyString ->
  (forall a, P (String a EmptyString)) ->
  (forall a b, P (String a (String b EmptyString))) ->
  (forall a b c r, P r -> P (String a (String b (String c r)))) ->
  forall s, P s.
Proof.
  intros H0 H1 H2 H3 s.
  assert (H : forall n s, (String.length s <= n)%nat -> P s).
  { induction n as [| n IH]; intros [| a [| b [| c r]]] Hl; simpl in Hl; auto; try lia.
    apply H3, IH. lia. }
  exact (H _ s (le_n _)).
Qed.

(** [base64.StdEncoding.EncodeToString] writes 4 characters for every 3
    bytes and for a final group of 1 or 2: its length is
    [4 * ((len + 2) / 3)] ([EncodedLen]). *)
Theorem EncodeToString_length s :
  String.length (EncodeToString s) = (4 * ((String.length s + 2) / 3))%nat.
Proof.
  unfold EncodeToString. induction s as [| a | a b | a b c r IH] using encode_groups_ind;
    [reflexivity | reflexivity | reflexivity |].
  cbn [encode_groups String.length]. rewrite IH.
  replace (S (S (S (String.length r))) + 2)%nat with (1 * 3 + (String.length r + 2))%nat by lia.
  rewrite Nat.div_add_l by lia. lia.
Qed.

(** Its output is characters of the standard alphabet followed by the
    padding: none when the length is a multiple of 3, "==" when one byte
    is left over, "=" when two are. *)
Theorem EncodeToString_alphabet s :
  exists body pad, EncodeToString s = body ++ pad
    /\ chars_in encodeStd body = true
    /\ pad = match (String.length s mod 3)%nat with 0%nat => "" | 1%nat => "==" | _ => "=" end.
Proof.
  unfold EncodeToString. induction s as [| a | a b | a b c r IH] using encode_groups_ind.
  - exists "", "". split; [reflexivity | split; reflexivity].
  - exists (String (encode_sextet (Z.shiftr (Z.shiftl (byte_val a) 16) 18))
             (String (encode_sextet (Z.shiftr (Z.shiftl (byte_val a) 16) 12)) "")), "==".
    split; [reflexivity |]. split; [| reflexivity].
    cbn [chars_in]. rewrite !encode_sextet_in. reflexivity.
  - eexists (String _ (String _ (String _ ""))), "=".
    split; [reflexivity |]. split; [| reflexivity].
    cbn [chars_in]. rewrite !encode_sextet_in. reflexivity.
  - destruct IH as [body [pad [Heq [Hb Hp]]]].
    eexists (String _ (String _ (String _ (String _ body)))), pad.
    split; [cbn [encode_groups]; rewrite Heq; reflexivity |].
    split.
    + cbn [chars_in]. rewrite !encode_sextet_in, Hb. reflexivity.
    + rewrite Hp. cbn [String.length].
      replace (S (S (S (String.length r)))) with (String.length r + 1 * 3)%nat by lia.
      rewrite Nat.Div0.mod_add. reflexivity.
Qed.

(** *** The example programs *)

Lemma post_request_facts {B} (marshal : B -> jvalue + lib_error) c path x r :
  build_request url_parse_ok marshal c MethodPost path (Some x) = inl r ->
  URL r = BaseURL c ++ path /\ Method r = "POST"
  /\ Header_Get (ReqHeader r) "X-Server-API-Key" = APIKey c
  /\ marshal_body marshal (Some x) = inl (ReqBody r).
Proof.
  intros Hb. destruct (build_request_spec _ _ _ _ _ _ Hb) as [Hm [Hu Hh]].
  split; [exact Hu |]. split; [rewrite Hm; reflexivity |]. split.
  - rewrite Hh. unfold Header_Get.
    change (CanonicalMIMEHeaderKey "X-Server-API-Key") with "X-Server-Api-Key".
    simplify_map_eq. reflexivity.
  - revert Hb. unfold build_request.
    destruct (marshal_body marshal (Some x)) as [bodyReader|]; [| discriminate].
    unfold NewRequest. destruct (negb (validMethod _)); [discriminate |].
    destruct (negb (url_parse_ok _)); [discriminate |].
    intros H. injection H as <-. reflexivity.
Qed.

Ltac stage_tac :=
  rewrite trace_bind, run_bind; unfold post; rewrite run_do, trace_do;
  destruct (build_request _ _ _ _ _ _) as [?req | ?err] eqn:?Hb; cbn beta iota;
  [ destruct (handle_response _ _) as [[?resp|] [?err|]]; cbn beta iota;
    repeat match goal with |- context [match ?u with Some _ => _ | None => _ end] => destruct u end;
    (split; [reflexivity | right; eexists; split; reflexivity])
  | split; [reflexivity | left; split; [reflexivity | eexists; split; reflexivity]] ].

(** One endpoint call as a stage of a program: it keeps the client, and it
    either sends nothing and returns an error, or sends the one request
    [build_request] made. *)
Lemma stage_SendMessage net r c :
  fst (run net (SendMessage url_parse_ok float64_ok r c)) = c
  /\ ((trace net (SendMessage url_parse_ok float64_ok r c) = []
       /\ exists err, build_request url_parse_ok (marshal_ptr SendMessageRequest.marshal) c MethodPost "/send/message" (Some r) = inr err
             /\ snd (snd (run net (SendMessage url_parse_ok float64_ok r c))) = Some err)
      \/ exists req, trace net (SendMessage url_parse_ok float64_ok r c) = [req]
           /\ build_request url_parse_ok (marshal_ptr SendMessageRequest.marshal) c MethodPost
                "/send/message" (Some r) = inl req).
Proof. unfold SendMessage. stage_tac. Qed.

Lemma stage_SendRaw net r c :
  fst (run net (SendRaw url_parse_ok float64_ok r c)) = c
  /\ ((trace net (SendRaw url_parse_ok float64_ok r c) = []
       /\ exists err, build_request url_parse_ok (marshal_ptr SendRawRequest.marshal) c MethodPost "/send/raw" (Some r) = inr err
             /\ snd (snd (run net (SendRaw url_parse_ok float64_ok r c))) = Some err)
      \/ exists req, trace net (SendRaw url_parse_ok float64_ok r c) = [req]
           /\ build_request url_parse_ok (marshal_ptr SendRawRequest.marshal) c MethodPost
                "/send/raw" (Some r) = inl req).
Proof. unfold SendRaw. stage_tac. Qed.

Lemma stage_GetMessage net id c :
  fst (run net (GetMessage url_parse_ok float64_ok unmarshal_Message id c)) = c
  /\ ((trace net (GetMessage url_parse_ok float64_ok unmarshal_Message id c) = []
       /\ exists err, build_request url_parse_ok marshal_id_map c MethodPost "/messages/message" (Some id) = inr err
             /\ snd (snd (run net (GetMessage url_parse_ok float64_ok unmarshal_Message id c))) = Some err)
      \/ exists req, trace net (GetMessage url_parse_ok float64_ok unmarshal_Message id c) = [req]
           /\ build_request url_parse_ok marshal_id_map c MethodPost "/messages/message" (Some id) = inl req).
Proof. unfold GetMessage. stage_tac. Qed.

Lemma stage_GetMessageDeliveries net id c :
  fst (run net (GetMessageDeliveries url_parse_ok float64_ok unmarshal_Deliveries id c)) = c
  /\ ((trace net (GetMessageDeliveries url_parse_ok float64_ok unmarshal_Deliveries id c) = []
       /\ exists err, build_request url_parse_ok marshal_id_map c MethodPost "/messages/deliveries" (Some id) = inr err
             /\ snd (snd (run net (GetMessageDeliveries url_parse_ok float64_ok unmarshal_Deliveries id c))) = Some err)
      \/ exists req, trace net (GetMessageDeliveries url_parse_ok float64_ok unmarshal_Deliveries id c) = [req]
           /\ build_request url_parse_ok marshal_id_map c MethodPost "/messages/deliveries" (Some id) = inl req).
Proof. unfold GetMessageDeliveries. stage_tac. Qed.

Lemma example_client hc apiKey baseURL :
  (if negb (String.eqb baseURL "") then with_BaseURL (fst (NewClient hc apiKey)) baseURL
   else fst (NewClient hc apiKey))
  = mkClient (if String.eqb baseURL "" then DefaultBaseURL else baseURL) apiKey hc.
Proof. destruct (String.eqb baseURL ""); reflexivity. Qed.

Ltac not_two_nils_tac :=
  rewrite run_bind; unfold post; rewrite run_do;
  destruct (build_request _ _ _ _ _ _) as [?req | ?err]; cbn beta iota; [| discriminate];
  match goal with |- context [handle_response float64_ok ?o] =>
    pose proof (handle_response_shape o) as ?Hshape;
    destruct (handle_response float64_ok o) as [[?resp|] [?err|]]; try contradiction
  end;
  cbn beta iota;
  repeat match goal with |- context [match ?u with Some _ => _ | None => _ end] => destruct u end;
  discriminate.

(** The send methods and [GetMessage] never return two nils. *)
Lemma SendMessage_not_two_nils net r c :
  snd (run net (SendMessage url_parse_ok float64_ok r c)) <> (None, None).
Proof. unfold SendMessage. not_two_nils_tac. Qed.

Lemma SendRaw_not_two_nils net r c :
  snd (run net (SendRaw url_parse_ok float64_ok r c)) <> (None, None).
Proof. unfold SendRaw. not_two_nils_tac. Qed.

Lemma GetMessage_not_two_nils net id c :
  snd (run net (GetMessage url_parse_ok float64_ok unmarshal_Message id c)) <> (None, None).
Proof. unfold GetMessage. not_two_nils_tac. Qed.

(** Runs one stage of an example program, given the stage's lemma and a
    fact ruling out two nils (or [I]). *)
Ltac ex_stage H N :=
  rewrite trace_io_bind, run_io_bind;
  let HN := fresh "HN" in
  let Hc := fresh "Hc" in let Hs := fresh "Hs" in
  let T := fresh "T" in let e := fresh "e" in let E := fresh "E" in
  let r := fresh "r" in let B := fresh "B" in
  let c1 := fresh "c" in let o1 := fresh "o" in let oe1 := fresh "oe" in
  pose proof N as HN;
  destruct H as [Hc Hs];
  lazymatch type of Hc with
  | fst (run ?n ?t) = _ =>
      destruct Hs as [[T [e [_ E]]] | [r [T B]]]; rewrite T;
      destruct (run n t) as [c1 [o1 oe1]]; cbn [fst snd] in *; subst c1;
      [ subst oe1; destruct o1 | destruct o1; destruct oe1 ];
      cbn beta iota;
      try (exfalso; apply HN; reflexivity)
  end.

Ltac ex_done :=
  solve [ split; [cbn; congruence | split; [repeat first [assumption | constructor]
          | cbn; first [ reflexivity
                       | left; split; [lia | eexists; reflexivity]
                       | right; left; split; [lia | eexists; reflexivity]
                       | right; right; split; [lia | eexists; reflexivity] ] ] ] ].

Ltac ex_close :=
  repeat match goal with
         | B : build_request _ _ _ _ _ _ = inl _ |- _ =>
             destruct (post_request_facts _ _ _ _ _ B) as [?U [?Mt [?K _]]]; clear B
         end;
  cbn [trace app map firstn BaseURL APIKey run snd] in *;
  first [ exists 0%nat; ex_done | exists 1%nat; ex_done
        | exists 2%nat; ex_done | exists 3%nat; ex_done ].

Lemma message_example_sequence net hc apiKey baseURL :
  let base := if String.eqb baseURL "" then DefaultBaseURL else baseURL in
  exists n,
    map URL (trace net (message.SendExample url_parse_ok float64_ok unmarshal_Message
                          unmarshal_Deliveries lib_text hc apiKey baseURL))
    = firstn n [base ++ "/send/message"; base ++ "/messages/message"; base ++ "/messages/deliveries"]
    /\ Forall (fun r => Method r = "POST" /\ Header_Get (ReqHeader r) "X-Server-API-Key" = apiKey)
         (trace net (message.SendExample url_parse_ok float64_ok unmarshal_Message
                       unmarshal_Deliveries lib_text hc apiKey baseURL))
    /\ match snd (run net (message.SendExample url_parse_ok float64_ok unmarshal_Message
                             unmarshal_Deliveries lib_text hc apiKey baseURL)) with
       | Finished => n = 3%nat
       | Fatal msg =>
           ((n <= 1)%nat /\ exists e, msg = "Error sending message: " ++ goerror_Error lib_text e)
           \/ ((1 <= n <= 2)%nat /\ exists e, msg = "Error getting message: " ++ goerror_Error lib_text e)
           \/ ((2 <= n <= 3)%nat
               /\ exists e, msg = "Error getting message deliveries: " ++ goerror_Error lib_text e)
       | Panic => False
       end.
Proof.
  intros base. unfold message.SendExample. cbv zeta. rewrite example_client. fold base.
  ex_stage (stage_SendMessage net (Some message.example_request) (mkClient base apiKey hc))
           (SendMessage_not_two_nils net (Some message.example_request) (mkClient base apiKey hc));
    try ex_close.
  ex_stage (stage_GetMessage net (SendMessageResponse.MessageID t) (mkClient base apiKey hc))
           (GetMessage_not_two_nils net (SendMessageResponse.MessageID t) (mkClient base apiKey hc));
    try ex_close.
  ex_stage (stage_GetMessageDeliveries net (SendMessageResponse.MessageID t) (mkClient base apiKey hc)) I;
    ex_close.
Qed.

Lemma raw_example_sequence net hc apiKey baseURL :
  let base := if String.eqb baseURL "" then DefaultBaseURL else baseURL in
  exists n,
    map URL (trace net (raw.SendExample url_parse_ok float64_ok unmarshal_Message
                          unmarshal_Deliveries lib_text hc apiKey baseURL))
    = firstn n [base ++ "/send/raw"; base ++ "/messages/message"; base ++ "/messages/deliveries"]
    /\ Forall (fun r => Method r = "POST" /\ Header_Get (ReqHeader r) "X-Server-API-Key" = apiKey)
         (trace net (raw.SendExample url_parse_ok float64_ok unmarshal_Message
                       unmarshal_Deliveries lib_text hc apiKey baseURL))
    /\ match snd (run net (raw.SendExample url_parse_ok float64_ok unmarshal_Message
                             unmarshal_Deliveries lib_text hc apiKey baseURL)) with
       | Finished => n = 3%nat
       | Fatal msg =>
           ((n <= 1)%nat /\ exists e, msg = "Error sending raw message: " ++ goerror_Error lib_text e)
           \/ ((1 <= n <= 2)%nat /\ exists e, msg = "Error getting message: " ++ goerror_Error lib_text e)
           \/ ((2 <= n <= 3)%nat
               /\ exists e, msg = "Error getting message deliveries: " ++ goerror_Error lib_text e)
       | Panic => False
       end.
Proof.
  intros base. unfold raw.SendExample. cbv zeta. rewrite example_client. fold base.
  ex_stage (stage_SendRaw net (Some (raw.example_request (EncodeToString raw.rawMessage)))
              (mkClient base apiKey hc))
           (SendRaw_not_two_nils net (Some (raw.example_request (EncodeToString raw.rawMessage)))
              (mkClient base apiKey hc));
    try ex_close.
  ex_stage (stage_GetMessage net (SendMessageResponse.MessageID t) (mkClient base apiKey hc))
           (GetMessage_not_two_nils net (SendMessageResponse.MessageID t) (mkClient base apiKey hc));
    try ex_close.
  ex_stage (stage_GetMessageDeliveries net (SendMessageResponse.MessageID t) (mkClient base apiKey hc)) I;
    ex_close.
Qed.

(** The example programs talk to the server in a fixed order, under the
    base URL given (the default one when it is empty): the send (to
    [/send/message], or [/send/raw] for the raw example), then
    [/messages/message], then [/messages/deliveries]. The sequence is cut
    short only by a failed step: the program finishes normally only after
    all three requests, and otherwise ends with the [log.Fatalf] of the
    step that failed, having sent no request past that step's. Every
    request is a POST carrying the API key given. *)
Theorem SendExample_request_sequence net hc apiKey baseURL :
  let base := if String.eqb baseURL "" then DefaultBaseURL else baseURL in
  (exists n,
    map URL (trace net (message.SendExample url_parse_ok float64_ok unmarshal_Message
                          unmarshal_Deliveries lib_text hc apiKey baseURL))
    = firstn n [base ++ "/send/message"; base ++ "/messages/message"; base ++ "/messages/deliveries"]
    /\ Forall (fun r => Method r = "POST" /\ Header_Get (ReqHeader r) "X-Server-API-Key" = apiKey)
         (trace net (message.SendExample url_parse_ok float64_ok unmarshal_Message
                       unmarshal_Deliveries lib_text hc apiKey baseURL))
    /\ match snd (run net (message.SendExample url_parse_ok float64_ok unmarshal_Message
                             unmarshal_Deliveries lib_text hc apiKey baseURL)) with
       | Finished => n = 3%nat
       | Fatal msg =>
           ((n <= 1)%nat /\ exists e, msg = "Error sending message: " ++ goerror_Error lib_text e)
           \/ ((1 <= n <= 2)%nat /\ exists e, msg = "Error getting message: " ++ goerror_Error lib_text e)
           \/ ((2 <= n <= 3)%nat
               /\ exists e, msg = "Error getting message deliveries: " ++ goerror_Error lib_text e)
       | Panic => False
       end)
  /\ (exists n,
    map URL (trace net (raw.SendExample url_parse_ok float64_ok unmarshal_Message
                          unmarshal_Deliveries lib_text hc apiKey baseURL))
    = firstn n [base ++ "/send/raw"; base ++ "/messages/message"; base ++ "/messages/deliveries"]
    /\ Forall (fun r => Method r = "POST" /\ Header_Get (ReqHeader r) "X-Server-API-Key" = apiKey)
         (trace net (raw.SendExample url_parse_ok float64_ok unmarshal_Message
                       unmarshal_Deliveries lib_text hc apiKey baseURL))
    /\ match snd (run net (raw.SendExample url_parse_ok float64_ok unmarshal_Message
                             unmarshal_Deliveries lib_text hc apiKey baseURL)) with
       | Finished => n = 3%nat
       | Fatal msg =>
           ((n <= 1)%nat /\ exists e, msg = "Error sending raw message: " ++ goerror_Error lib_text e)
           \/ ((1 <= n <= 2)%nat /\ exists e, msg = "Error getting message: " ++ goerror_Error lib_text e)
           \/ ((2 <= n <= 3)%nat
               /\ exists e, msg = "Error getting message deliveries: " ++ goerror_Error lib_text e)
       | Panic => False
       end).
Proof.
  intros base. split; [apply message_example_sequence | apply raw_example_sequence].
Qed.

Lemma stage_length_le_1 {A} net (t : io A) :
  (trace net t = [] \/ exists r, trace net t = [r]) -> (length (trace net t) <= 1)%nat.
Proof. intros [H | [r H]]; rewrite H; cbn; lia. Qed.

(** When the send fails, the example programs stop right there: they
    print nothing, end with [log.Fatalf] of "Error sending message: " (or
    "Error sending raw message: ") and the error's text, and send no
    request after it. *)
Theorem SendExample_send_error_is_fatal net hc apiKey baseURL err :
  let c := mkClient (if String.eqb baseURL "" then DefaultBaseURL else baseURL) apiKey hc in
  (snd (snd (run net (SendMessage url_parse_ok float64_ok (Some message.example_request) c))) = Some err ->
   run net (message.SendExample url_parse_ok float64_ok unmarshal_Message unmarshal_Deliveries
              lib_text hc apiKey baseURL)
   = ([], Fatal ("Error sending message: " ++ goerror_Error lib_text err))
   /\ (length (trace net (message.SendExample url_parse_ok float64_ok unmarshal_Message
                            unmarshal_Deliveries lib_text hc apiKey baseURL)) <= 1)%nat)
  /\ (snd (snd (run net (SendRaw url_parse_ok float64_ok
                           (Some (raw.example_request (EncodeToString raw.rawMessage))) c))) = Some err ->
   run net (raw.SendExample url_parse_ok float64_ok unmarshal_Message unmarshal_Deliveries
              lib_text hc apiKey baseURL)
   = ([], Fatal ("Error sending raw message: " ++ goerror_Error lib_text err))
   /\ (length (trace net (raw.SendExample url_parse_ok float64_ok unmarshal_Message
                            unmarshal_Deliveries lib_text hc apiKey baseURL)) <= 1)%nat).
Proof.
  intros c. split; intros H.
  - unfold message.SendExample. cbv zeta. rewrite example_client. fold c.
    rewrite run_io_bind, trace_io_bind.
    assert (Hl := stage_length_le_1 net (SendMessage url_parse_ok float64_ok (Some message.example_request) c)
      ltac:(destruct (stage_SendMessage net (Some message.example_request) c) as [_ [[T _] | [r [T _]]]];
            [left | right; exists r]; exact T)).
    destruct (run net (SendMessage url_parse_ok float64_ok (Some message.example_request) c))
      as [c1 [o1 oe1]].
    cbn [snd] in H. subst oe1.
    destruct o1; cbn beta iota; (split; [reflexivity | cbn [trace]; rewrite app_nil_r; exact Hl]).
  - unfold raw.SendExample. cbv zeta. rewrite example_client. fold c.
    rewrite run_io_bind, trace_io_bind.
    assert (Hl := stage_length_le_1 net (SendRaw url_parse_ok float64_ok
                    (Some (raw.example_request (EncodeToString raw.rawMessage))) c)
      ltac:(destruct (stage_SendRaw net (Some (raw.example_request (EncodeToString raw.rawMessage))) c)
              as [_ [[T _] | [r [T _]]]];
            [left | right; exists r]; exact T)).
    destruct (run net (SendRaw url_parse_ok float64_ok
                (Some (raw.example_request (EncodeToString raw.rawMessage))) c))
      as [c1 [o1 oe1]].
    cbn [snd] in H. subst oe1.
    destruct o1; cbn beta iota; (split; [reflexivity | cbn [trace]; rewrite app_nil_r; exact Hl]).
Qed.

Ltac fetch_tac Hs stage_send :=
  rewrite trace_io_bind;
  let Hc := fresh in let T := fresh in let e := fresh in let E := fresh in
  let r1 := fresh "r1" in let B1 := fresh in
  let c1 := fresh in let o1 := fresh in let oe1 := fresh in
  destruct stage_send as [Hc [[T [e [_ E]]] | [r1 [T B1]]]];
  [ lazymatch type of Hc with
    | fst (run ?n ?t) = _ =>
        exfalso; destruct (run n t) as [c1 [o1 oe1]]; cbn [snd] in E, Hs; congruence
    end
  | lazymatch type of Hc with
    | fst (run ?n ?t) = _ =>
        rewrite T; destruct (run n t) as [c1 [o1 oe1]]; cbn [fst snd] in Hc, Hs; subst c1;
        injection Hs as -> ->; cbn beta iota
    end ].

(** When the send succeeds with a response [sr], the second request the
    example programs send asks for that message: it goes to
    [/messages/message] with the body [{"id": sr.MessageID}], provided
    that URL parses. *)
Theorem SendExample_fetches_sent_message net hc apiKey baseURL sr :
  let base := if String.eqb baseURL "" then DefaultBaseURL else baseURL in
  let c := mkClient base apiKey hc in
  (snd (run net (SendMessage url_parse_ok float64_ok (Some message.example_request) c)) = (Some sr, None) ->
   url_parse_ok (base ++ "/messages/message") = true ->
   exists r1 r2 rest,
     trace net (message.SendExample url_parse_ok float64_ok unmarshal_Message unmarshal_Deliveries
                  lib_text hc apiKey baseURL) = r1 :: r2 :: rest
     /\ URL r2 = base ++ "/messages/message"
     /\ ReqBody r2 = Some (JObject [("id", JNumber (itoa (SendMessageResponse.MessageID sr)))]))
  /\ (snd (run net (SendRaw url_parse_ok float64_ok
                      (Some (raw.example_request (EncodeToString raw.rawMessage))) c)) = (Some sr, None) ->
   url_parse_ok (base ++ "/messages/message") = true ->
   exists r1 r2 rest,
     trace net (raw.SendExample url_parse_ok float64_ok unmarshal_Message unmarshal_Deliveries
                  lib_text hc apiKey baseURL) = r1 :: r2 :: rest
     /\ URL r2 = base ++ "/messages/message"
     /\ ReqBody r2 = Some (JObject [("id", JNumber (itoa (SendMessageResponse.MessageID sr)))])).
Proof.
  intros base c.
  assert (Hget : url_parse_ok (base ++ "/messages/message") = true ->
    exists r2, trace net (GetMessage url_parse_ok float64_ok unmarshal_Message
                            (SendMessageResponse.MessageID sr) c) = [r2]
      /\ URL r2 = base ++ "/messages/message"
      /\ ReqBody r2 = Some (JObject [("id", JNumber (itoa (SendMessageResponse.MessageID sr)))])).
  { intros Hu.
    destruct (build_request_post_ok marshal_id_map c "/messages/message" (SendMessageResponse.MessageID sr)
                _ eq_refl Hu) as [r2 Hb2].
    destruct (stage_GetMessage net (SendMessageResponse.MessageID sr) c)
      as [_ [[_ [e [Be _]]] | [r2' [T2 B2]]]]; [congruence |].
    rewrite Hb2 in B2. injection B2 as <-.
    destruct (post_request_facts _ _ _ _ _ Hb2) as [U [_ [_ Bd]]].
    exists r2. split; [exact T2 | split; [exact U |]].
    cbn in Bd. injection Bd as <-. reflexivity. }
  split; intros Hs Hu; destruct (Hget Hu) as [r2 [T2 [U2 Bd2]]].
  - unfold message.SendExample. cbv zeta. rewrite example_client. fold base. fold c.
    fetch_tac Hs (stage_SendMessage net (Some message.example_request) c).
    rewrite trace_io_bind, T2. exists r1, r2. eexists. split; [reflexivity | split; assumption].
  - unfold raw.SendExample. cbv zeta. rewrite example_client. fold base. fold c.
    fetch_tac Hs (stage_SendRaw net (Some (raw.example_request (EncodeToString raw.rawMessage))) c).
    rewrite trace_io_bind, T2. exists r1, r2. eexists. split; [reflexivity | split; assumption].
Qed.

End Proofs.

(* ------------------------------------------------------------------ *)
(** ** Instances on sample values *)

(** C1 at a 200 answer and at a 201 answer with [success_envelope]. *)
Lemma do_status_200_success_returns_envelope_witness :
  (exists r,
     run (fun _ _ => reply StatusOK (JObject success_envelope))
       (do accept_all accept_all marshal_id_map MethodPost "/messages/message" (Some 1) sample_client)
     = (sample_client, (Some r, None))
     /\ Unmarshal (decode_Response accept_all) Response.zero (JSONText (JObject success_envelope)) = Some r
     /\ Response.Status r = "success"
     /\ Response.Data r = envelope_field "data" success_envelope)
  /\ (exists e,
       Unmarshal (decode_Error accept_all) Error.zero (JSONText (JObject success_envelope)) = Some e
       /\ run (fun _ _ => reply 201 (JObject success_envelope))
            (do accept_all accept_all marshal_id_map MethodPost "/messages/message" (Some 1) sample_client)
          = (sample_client, (None, Some (APIError e)))).
Proof.
  split.
  - apply (proj1 (do_status_200_success_returns_envelope accept_all accept_all marshal_id_map
             MethodPost "/messages/message" (Some 1) sample_client sample_request success_envelope
             (fun _ _ => reply StatusOK (JObject success_envelope))
             ltac:(vm_compute; reflexivity) ltac:(vm_compute; reflexivity) ltac:(vm_compute; reflexivity))).
    reflexivity.
  - apply (proj2 (do_status_200_success_returns_envelope accept_all accept_all marshal_id_map
             MethodPost "/messages/message" (Some 1) sample_client sample_request success_envelope
             (fun _ _ => reply 201 (JObject success_envelope))
             ltac:(vm_compute; reflexivity) ltac:(vm_compute; reflexivity) ltac:(vm_compute; reflexivity))
             201).
    + discriminate.
    + reflexivity.
Defined.

(** C1 as the spec words it fails at 201: the envelope is well formed and
    its status is "success", the code is 2xx, yet [do] returns no
    envelope but the body parsed as an [*Error]. *)
Lemma do_status_201_success_counterexample :
  envelope_wf accept_all success_envelope = true
  /\ envelope_field "status" success_envelope = Some (JString "success")
  /\ (200 <= 201 < 300)%Z
  /\ snd (run (fun _ _ => reply 201 (JObject success_envelope))
            (do accept_all accept_all marshal_id_map MethodPost "/messages/message" (Some 1) sample_client))
     = (None, Some (APIError (Error.mk "success" "0.05" None
          (Some (JObject [("message_id", JNumber "123"); ("token", JString "t")])) "" ""))).
Proof.
  split; [vm_compute; reflexivity |].
  split; [vm_compute; reflexivity |].
  split; [lia |].
  vm_compute. reflexivity.
Qed.

(** C2 at a 404 answer with [error_envelope]. *)
Lemma do_non_2xx_returns_api_error_witness :
  run (fun _ _ => reply 404 (JObject error_envelope))
    (do accept_all accept_all marshal_id_map MethodPost "/messages/message" (Some 1) sample_client)
  = (sample_client, (None, Some (APIError
       (Error.mk "error" "0.01" None None "MessageNotFound" "No message found"))))
  /\ Error.Message (Error.mk "error" "0.01" None None "MessageNotFound" "No message found")
     = "No message found".
Proof.
  apply (do_non_2xx_returns_api_error accept_all accept_all marshal_id_map
           MethodPost "/messages/message" (Some 1) sample_client sample_request 404
           error_envelope (Error.mk "error" "0.01" None None "MessageNotFound" "No message found")
           "No message found" (fun _ _ => reply 404 (JObject error_envelope)));
    [vm_compute; reflexivity | vm_compute; reflexivity | right; lia
    | vm_compute; reflexivity | vm_compute; reflexivity].
Defined.

(** C3 at a 202 answer with [error_envelope]. *)
Lemma do_2xx_not_success_returns_api_error_witness :
  exists e,
    Unmarshal (decode_Error accept_all) Error.zero (JSONText (JObject error_envelope)) = Some e
    /\ run (fun _ _ => reply 202 (JObject error_envelope))
         (do accept_all accept_all marshal_id_map MethodPost "/messages/message" (Some 1) sample_client)
       = (sample_client, (None, Some (APIError e))).
Proof.
  apply (do_2xx_not_success_returns_api_error accept_all accept_all marshal_id_map
           MethodPost "/messages/message" (Some 1) sample_client sample_request 202
           error_envelope (fun _ _ => reply 202 (JObject error_envelope)));
    [vm_compute; reflexivity | vm_compute; reflexivity | lia
    | vm_compute; reflexivity | vm_compute; discriminate].
Defined.

(** C10 at a 200 answer with [success_envelope]. *)
Lemma do_returned_response_is_success_witness :
  Response.Status (Response.mk "success" "0.05" None
    (Some (JObject [("message_id", JNumber "123"); ("token", JString "t")]))) = "success"
  /\ @None goerror = None.
Proof.
  apply (do_returned_response_is_success accept_all accept_all
           (fun _ _ => reply StatusOK (JObject success_envelope)) marshal_id_map
           MethodPost "/messages/message" (Some 1) sample_client sample_client).
  vm_compute. reflexivity.
Defined.

(** C7 at [sample_request]. *)
Lemma do_request_headers_witness :
  Header_Get (ReqHeader sample_request) "Content-Type" = "application/json"
  /\ Header_Get (ReqHeader sample_request) "Accept" = "application/json"
  /\ Header_Get (ReqHeader sample_request) "X-Server-API-Key" = APIKey sample_client
  /\ ReqHeader sample_request =
     <["X-Server-Api-Key" := [APIKey sample_client]]> (<["Accept" := ["application/json"]]>
       (<["Content-Type" := ["application/json"]]> ∅)).
Proof.
  apply (do_request_headers accept_all accept_all marshal_id_map
           MethodPost "/messages/message" (Some 1) sample_client sample_request).
  apply sends_do_intro. vm_compute. reflexivity.
Defined.

(** C8 at [GetMessage(1)] and [sample_request]. *)
Lemma endpoints_post_to_paths_witness :
  Method sample_request = "POST"
  /\ URL sample_request = BaseURL sample_client ++ "/messages/message".
Proof.
  apply (proj1 (endpoints_post_to_paths accept_all accept_all (fun _ => None) (fun _ => None)
                  sample_client) 1 sample_request).
  unfold GetMessage. apply sends_bind_intro. unfold post.
  apply sends_do_intro. vm_compute. reflexivity.
Defined.

(** C6 at [GetMessage(1)] against a failing transport. *)
Lemma endpoints_return_transport_error_witness :
  snd (run (fun _ _ => NetErr "connection refused")
         (GetMessage accept_all accept_all (fun _ => None) 1 sample_client))
  = (None, Some (Errorf "error performing request" (ErrNet "connection refused"))).
Proof.
  apply (proj1 (endpoints_return_transport_error accept_all accept_all (fun _ => None) (fun _ => None)
                  (fun _ _ => NetErr "connection refused") sample_client
                  (Errorf "error performing request" (ErrNet "connection refused"))) 1 None).
  vm_compute. reflexivity.
Defined.

(** C4 at [SendMessage] against a server whose [data] is a string. *)
Lemma endpoints_reject_malformed_data_witness :
  snd (run (fun _ _ => reply StatusOK (JObject malformed_data_envelope))
         (SendMessage accept_all accept_all (Some sample_send_request) sample_client))
  = (None, Some (Errorf "error unmarshaling send response" ErrJSON)).
Proof.
  apply (proj1 (proj2 (proj2 (endpoints_reject_malformed_data accept_all accept_all
           (fun _ => None) (fun _ => None)
           (fun _ _ => reply StatusOK (JObject malformed_data_envelope)) sample_client
           (Response.mk "success" "0" None (Some (JString "oops"))))))
           (Some sample_send_request));
    vm_compute; reflexivity.
Defined.

(** C5 at a concrete request and client. *)
Lemma SendMessage_stub_server_example_witness :
  run (fun _ _ => reply 200 (JObject [("status", JString "success");
         ("data", JObject [("message_id", JNumber "123"); ("token", JString "t")])]))
    (SendMessage accept_all accept_all (Some sample_send_request) sample_client)
  = (sample_client, (Some (SendMessageResponse.mk 123 "t"), None)).
Proof.
  apply (SendMessage_stub_server_example accept_all accept_all sample_send_request sample_client
           (fun _ _ => reply 200 (JObject [("status", JString "success");
              ("data", JObject [("message_id", JNumber "123"); ("token", JString "t")])])));
    [reflexivity | reflexivity | reflexivity | intros; reflexivity].
Defined.

(** Instances of the further properties. *)

Lemma do_marshal_error_sends_nothing_witness :
  trace (fun _ _ => reply StatusOK JNull)
    (do accept_all accept_all marshal_chan MethodPost "/send/message" (Some 1) sample_client) = []
  /\ run (fun _ _ => reply StatusOK JNull)
       (do accept_all accept_all marshal_chan MethodPost "/send/message" (Some 1) sample_client)
     = (sample_client, (None, Some (Errorf "error marshaling request body"
                                      (ErrMarshal "json: unsupported type: chan int")))).
Proof.
  apply (do_marshal_error_sends_nothing accept_all accept_all (fun _ _ => reply StatusOK JNull)
           marshal_chan MethodPost "/send/message" 1 sample_client
           (ErrMarshal "json: unsupported type: chan int")).
  reflexivity.
Defined.

Lemma do_url_rejected_sends_nothing_witness :
  trace (fun _ _ => reply StatusOK JNull)
    (do reject_all accept_all marshal_id_map MethodPost "/messages/message" (Some 1) sample_client) = []
  /\ run (fun _ _ => reply StatusOK JNull)
       (do reject_all accept_all marshal_id_map MethodPost "/messages/message" (Some 1) sample_client)
     = (sample_client, (None, Some (Errorf "error creating request"
                                      (ErrURL (BaseURL sample_client ++ "/messages/message"))))).
Proof.
  apply (do_url_rejected_sends_nothing reject_all accept_all (fun _ _ => reply StatusOK JNull)
           marshal_id_map MethodPost "/messages/message" (Some 1) sample_client
           (Some (JObject [("id", JNumber "1")])));
    vm_compute; reflexivity.
Defined.

Lemma do_invalid_method_sends_nothing_witness :
  trace (fun _ _ => reply StatusOK JNull)
    (do accept_all accept_all marshal_id_map "BAD METHOD" "/messages/message" (Some 1) sample_client) = []
  /\ run (fun _ _ => reply StatusOK JNull)
       (do accept_all accept_all marshal_id_map "BAD METHOD" "/messages/message" (Some 1) sample_client)
     = (sample_client, (None, Some (Errorf "error creating request" (ErrMethod "BAD METHOD")))).
Proof.
  apply (do_invalid_method_sends_nothing accept_all accept_all (fun _ _ => reply StatusOK JNull)
           marshal_id_map "BAD METHOD" "/messages/message" (Some 1) sample_client
           (Some (JObject [("id", JNumber "1")])));
    [vm_compute; reflexivity | discriminate | vm_compute; reflexivity].
Defined.

Lemma do_request_shape_witness :
  Method sample_request = (if String.eqb MethodPost "" then "GET" else MethodPost)
  /\ URL sample_request = BaseURL sample_client ++ "/messages/message"
  /\ marshal_body marshal_id_map (Some 1) = inl (ReqBody sample_request).
Proof.
  apply (do_request_shape accept_all accept_all marshal_id_map
           MethodPost "/messages/message" (Some 1) sample_client sample_request).
  apply sends_do_intro. vm_compute. reflexivity.
Defined.

Lemma do_transport_and_read_errors_witness :
  run (fun _ _ => NetErr "connection refused")
    (do accept_all accept_all marshal_id_map MethodPost "/messages/message" (Some 1) sample_client)
  = (sample_client, (None, Some (Errorf "error performing request" (ErrNet "connection refused")))).
Proof.
  apply (proj1 (do_transport_and_read_errors accept_all accept_all (fun _ _ => NetErr "connection refused")
                  marshal_id_map MethodPost "/messages/message" (Some 1) sample_client sample_request
                  ltac:(vm_compute; reflexivity)) "connection refused").
  reflexivity.
Defined.

Lemma do_body_not_an_object_witness :
  run (fun _ _ => NetOK (mkHttpResponse 502 (Some (NotJSON "<html>"))))
    (do accept_all accept_all marshal_id_map MethodPost "/messages/message" (Some 1) sample_client)
  = (sample_client, (None, Some (Errorf "error unmarshaling error response" ErrJSON))).
Proof.
  apply (do_body_not_an_object accept_all accept_all
           (fun _ _ => NetOK (mkHttpResponse 502 (Some (NotJSON "<html>"))))
           marshal_id_map MethodPost "/messages/message" (Some 1) sample_client sample_request
           502 (NotJSON "<html>"));
    [vm_compute; reflexivity | reflexivity | intros ms H; discriminate | discriminate].
Defined.

Lemma do_null_body_zero_error_witness :
  run (fun _ _ => reply 500 JNull)
    (do accept_all accept_all marshal_id_map MethodPost "/messages/message" (Some 1) sample_client)
  = (sample_client, (None, Some (APIError Error.zero))).
Proof.
  apply (do_null_body_zero_error accept_all accept_all (fun _ _ => reply 500 JNull)
           marshal_id_map MethodPost "/messages/message" (Some 1) sample_client sample_request 500);
    [vm_compute; reflexivity | reflexivity].
Defined.

Lemma do_api_error_text_witness :
  goerror_Error sample_lib_text
    (APIError (Error.mk "error" "0.01" None None "MessageNotFound" "No message found"))
  = "postal API error: " ++ envelope_string "status" error_envelope
    ++ " - " ++ envelope_string "message" error_envelope.
Proof.
  apply (do_api_error_text accept_all accept_all sample_lib_text (fun _ _ => reply 404 (JObject error_envelope))
           marshal_id_map MethodPost "/messages/message" (Some 1) sample_client sample_request
           404 error_envelope sample_client);
    [vm_compute; reflexivity | reflexivity | vm_compute; reflexivity | vm_compute; reflexivity].
Defined.

Lemma Header_Set_Get_witness :
  Header_Get (Header_Set (<["Accept" := ["application/json"]]> ∅) "X-Server-API-Key" "key")
    "x-server-api-key"
  = if String.eqb (lower "x-server-api-key") (lower "X-Server-API-Key") then "key"
    else Header_Get (<["Accept" := ["application/json"]]> ∅) "x-server-api-key".
Proof. apply Header_Set_Get. reflexivity. Defined.

Lemma ParseInt64_itoa_witness :
  ParseInt64 (itoa (-9223372036854775808)) = Some (-9223372036854775808).
Proof. apply ParseInt64_itoa. vm_compute. reflexivity. Defined.

Lemma enc_string_map_sorted_witness :
  exists ms, enc_string_map [("X-Custom-Header", "Custom Value"); ("Accept", "text/plain")] = JObject ms
    /\ keys_sorted ms = true
    /\ Permutation ms (map (fun '(k, v) => (k, JString v))
                         [("X-Custom-Header", "Custom Value"); ("Accept", "text/plain")]).
Proof. apply enc_string_map_sorted. discriminate. Defined.

Lemma send_methods_return_sent_ids_witness :
  run sent_ids_net (SendMessage accept_all accept_all (Some sample_send_request) sample_client)
  = (sample_client, (Some (SendMessageResponse.mk 42 "tok"), None))
  /\ run sent_ids_net (SendRaw accept_all accept_all None sample_client)
  = (sample_client, (Some (SendMessageResponse.mk 42 "tok"), None)).
Proof.
  apply (send_methods_return_sent_ids accept_all accept_all (Some sample_send_request) None
           sample_client sent_ids_net sent_ids_envelope 42 "tok");
    [reflexivity | reflexivity | vm_compute; reflexivity | vm_compute; reflexivity
    | vm_compute; reflexivity | vm_compute; reflexivity | intros hc r; reflexivity].
Defined.

Lemma SendExample_send_error_is_fatal_witness :
  run (fun _ _ => reply StatusOK JNull)
    (message.SendExample reject_all accept_all (fun _ => None) (fun _ => None) sample_lib_text 1 "key" "")
  = ([], Fatal ("Error sending message: " ++ goerror_Error sample_lib_text
                  (Errorf "error creating request" (ErrURL (DefaultBaseURL ++ "/send/message")))))
  /\ (length (trace (fun _ _ => reply StatusOK JNull)
       (message.SendExample reject_all accept_all (fun _ => None) (fun _ => None) sample_lib_text
          1 "key" "")) <= 1)%nat.
Proof.
  apply (proj1 (SendExample_send_error_is_fatal reject_all accept_all (fun _ => None) (fun _ => None)
                  sample_lib_text (fun _ _ => reply StatusOK JNull) 1 "key" ""
                  (Errorf "error creating request" (ErrURL (DefaultBaseURL ++ "/send/message"))))).
  vm_compute. reflexivity.
Defined.

Lemma SendExample_fetches_sent_message_witness :
  exists r1 r2 rest,
    trace sent_ids_net
      (message.SendExample accept_all accept_all (fun _ => None) (fun _ => None) sample_lib_text 1 "key" "")
    = r1 :: r2 :: rest
    /\ URL r2 = DefaultBaseURL ++ "/messages/message"
    /\ ReqBody r2 = Some (JObject [("id", JNumber (itoa 42))]).
Proof.
  apply (proj1 (SendExample_fetches_sent_message accept_all accept_all (fun _ => None) (fun _ => None)
                  sample_lib_text sent_ids_net 1 "key" "" (SendMessageResponse.mk 42 "tok")));
    [vm_compute; reflexivity | reflexivity].
Defined.
